(** * CodaLab: error classes, HTTP error translation and linked-bundle URLs

    A shallow embedding of [codalab/common.py] (error classes,
    [exception_to_http_error], [http_error_to_exception],
    [parse_linked_bundle_url]) followed by a model of the target-info
    pipeline exercised by [tests/unit/worker/download_util_test.py]. *)

From Stdlib Require Import List String Ascii Bool Arith ZArith NArith Lia.
Import ListNotations.

Local Open Scope list_scope.
Local Open Scope string_scope.

(** ** Python values used by the module *)

Module Py.

(** [s.startswith(p)] *)
Definition startswith (s p : string) : bool := String.prefix p s.

(** [s[n:]] for [0 <= n] *)
Fixpoint drop (n : nat) (s : string) : string :=
  match n, s with
  | O, _ => s
  | S _, EmptyString => EmptyString
  | S m, String _ t => drop m t
  end.

(** [s.endswith(p)] *)
Definition endswith (s p : string) : bool :=
  (String.length p <=? String.length s)%nat
  && String.eqb (drop (String.length s - String.length p) s) p.

(** [s.split(sep, maxsplit)] for a one-character separator and
    [0 <= maxsplit]: at most [maxsplit] cuts, counted from the left; the
    last element is the uncut rest. *)
Fixpoint split (sep : ascii) (maxsplit : nat) (s : string) {struct s}
  : list string :=
  match maxsplit with
  | O => [s]
  | S m =>
      match s with
      | EmptyString => [EmptyString]
      | String c t =>
          if Ascii.eqb c sep then EmptyString :: split sep m t
          else match split sep maxsplit t with
               | h :: r => String c h :: r
               | [] => [String c EmptyString]
               end
      end
  end.

(** Number of occurrences of a character in a string. *)
Fixpoint count (sep : ascii) (s : string) : nat :=
  match s with
  | EmptyString => O
  | String c t => (if Ascii.eqb c sep then 1 else 0) + count sep t
  end.

(** [str(n)] for the small counts that occur in unpacking errors. *)
Definition str_of_small (n : nat) : string :=
  match n with
  | 0 => "0" | 1 => "1" | 2 => "2" | 3 => "3" | 4 => "4"
  | 5 => "5" | 6 => "6" | 7 => "7" | 8 => "8" | _ => "9"
  end.

End Py.

(** ** Error classes of [codalab/common.py] *)

(** The classes the module declares, together with the two built-in
    classes they derive from. *)
Inductive exn_class : Type :=
  | Exception
  | ValueError
  | IntegrityError
  | PreconditionViolation
  | UsageError
  | NotFoundError
  | AuthorizationError
  | PermissionError
  | LoginPermissionError.

Definition exn_class_eqb (a b : exn_class) : bool :=
  match a, b with
  | Exception, Exception
  | ValueError, ValueError
  | IntegrityError, IntegrityError
  | PreconditionViolation, PreconditionViolation
  | UsageError, UsageError
  | NotFoundError, NotFoundError
  | AuthorizationError, AuthorizationError
  | PermissionError, PermissionError
  | LoginPermissionError, LoginPermissionError => true
  | _, _ => false
  end.

(** The base named in each [class X(Base)] header. *)
Definition base (c : exn_class) : option exn_class :=
  match c with
  | Exception => None
  | ValueError => Some Exception
  | IntegrityError => Some ValueError
  | PreconditionViolation => Some ValueError
  | UsageError => Some ValueError
  | NotFoundError => Some UsageError
  | AuthorizationError => Some UsageError
  | PermissionError => Some UsageError
  | LoginPermissionError => Some ValueError
  end.

(** Classes declared by the module itself, as opposed to Python built-ins. *)
Definition declared_in_module (c : exn_class) : bool :=
  match c with
  | Exception | ValueError => false
  | _ => true
  end.

Fixpoint ancestors (fuel : nat) (c : exn_class) : list exn_class :=
  c :: match fuel with
       | O => []
       | S f => match base c with
                | Some b => ancestors f b
                | None => []
                end
       end.

(** Method resolution order; the hierarchy is four levels deep. *)
Definition mro (c : exn_class) : list exn_class := ancestors 4 c.

Definition issubclass (c d : exn_class) : bool :=
  existsb (exn_class_eqb d) (mro c).

(** An exception value: its class and [str(e)]. Building [cls(message)]
    gives an exception whose [str] is [message]. *)
Record exception : Type := mkException {
  exn_type : exn_class;
  exn_str : string
}.

Definition isinstance (e : exception) (c : exn_class) : bool :=
  issubclass (exn_type e) c.

(** Outcome of a call that may raise. *)
Inductive result (A : Type) : Type :=
  | Return (a : A)
  | Raise (e : exception).
Arguments Return {A} a.
Arguments Raise {A} e.

(** ** HTTP error translation *)

Module Http.
Definition BAD_REQUEST : Z := 400.
Definition UNAUTHORIZED : Z := 401.
Definition FORBIDDEN : Z := 403.
Definition NOT_FOUND : Z := 404.
Definition INTERNAL_SERVER_ERROR : Z := 500.
End Http.

(** Listed in order of most specific to least specific. *)
Definition http_codes_and_exceptions : list (Z * exn_class) :=
  [ (Http.FORBIDDEN, PermissionError);
    (Http.UNAUTHORIZED, AuthorizationError);
    (Http.NOT_FOUND, NotFoundError);
    (Http.BAD_REQUEST, UsageError) ].

Definition exception_to_http_error (e : exception) : Z * string :=
  match find (fun kc => isinstance e (snd kc)) http_codes_and_exceptions with
  | Some (known_code, _) => (known_code, exn_str e)
  | None => (Http.INTERNAL_SERVER_ERROR, exn_str e)
  end.

Definition http_error_to_exception (code : Z) (message : string) : exception :=
  match find (fun kc => Z.eqb code (fst kc)) http_codes_and_exceptions with
  | Some (_, exception_type) => mkException exception_type message
  | None =>
      if (400 <=? code)%Z && (code <? 500)%Z
      then mkException UsageError message
      else mkException Exception message
  end.

(** ** Linked bundle paths *)

Inductive StorageType : Type :=
  | FILE_STORAGE
  | AZURE_BLOB_STORAGE.

Record LinkedBundlePath : Type := mkLinkedBundlePath {
  storage_type : StorageType;
  bundle_path : string;
  is_zip : bool;
  uses_beam : bool;
  zip_subpath : option string;
  bundle_uuid : option string
}.

Definition slash : ascii := "/"%char.

(** The [ValueError] Python raises when a starred unpacking with four
    mandatory targets receives [got] values. *)
Definition unpack_error (got : nat) : exception :=
  mkException ValueError
    ("not enough values to unpack (expected at least 4, got "
       ++ Py.str_of_small got ++ ")").

Definition parse_linked_bundle_url (url : string) : result LinkedBundlePath :=
  if Py.startswith url "azfs://" then
    let url' := Py.drop (String.length "azfs://") url in
    match Py.split slash 4 url' with
    | storage_account :: container :: uuid :: contents_file :: remainder =>
        let path :=
          "azfs://" ++ storage_account ++ "/" ++ container ++ "/"
            ++ uuid ++ "/" ++ contents_file in
        let zip := Py.endswith contents_file ".zip" in
        let sub :=
          if zip && negb (Nat.eqb (List.length remainder) 0)
          then Some (nth 0 remainder EmptyString)
          else None in
        Return (mkLinkedBundlePath AZURE_BLOB_STORAGE path zip true sub
                  (Some uuid))
    | parts => Raise (unpack_error (List.length parts))
    end
  else
    Return (mkLinkedBundlePath FILE_STORAGE url false false None None).


(** The reading of "fails with a dedicated error": the call raises an
    exception whose class is one the module declares. *)
Definition fails_with_dedicated_error (url : string) : Prop :=
  exists e, parse_linked_bundle_url url = Raise e
            /\ declared_in_module (exn_type e) = true.

(** The text after the scheme, cut into its first four segments and the
    optional rest. *)
Definition remote_text (a b c d : string) (tail : option string) : string :=
  a ++ "/" ++ b ++ "/" ++ c ++ "/" ++ d
    ++ match tail with Some r => "/" ++ r | None => EmptyString end.


(** ** Preconditions *)

(** [precondition(condition, message)]: returns [None] when the condition
    holds and raises [PreconditionViolation(message)] otherwise. *)
Definition precondition (condition : bool) (message : string) : result unit :=
  if negb condition then Raise (mkException PreconditionViolation message)
  else Return tt.

(** ** Codes after translation *)

(** What a code becomes after a trip through an exception and back: a code
    of the table is kept, any other 4xx code becomes 400, and everything
    else becomes 500; the message is kept. *)
Definition normalized_code (code : Z) : Z :=
  if existsb (Z.eqb code) (map fst http_codes_and_exceptions) then code
  else if (400 <=? code)%Z && (code <? 500)%Z then Http.BAD_REQUEST
  else Http.INTERNAL_SERVER_ERROR.

(** ** Responses as text *)

(** Text is held as its UTF-8 encoding, so [bytes.decode()] returns the
    same bytes when they are well-formed UTF-8 and raises
    [UnicodeDecodeError] otherwise. *)
Definition BINARY_PLACEHOLDER : string := "<binary>".

Definition byte_in (lo hi : N) (c : ascii) : bool :=
  (lo <=? N_of_ascii c)%N && (N_of_ascii c <=? hi)%N.

Definition continuation (c : ascii) : bool := byte_in 128 191 c.

(** The second byte allowed after the lead byte of a three-byte sequence:
    no overlong forms after [E0], no surrogates after [ED]. *)
Definition second_of_three (lead c : ascii) : bool :=
  if byte_in 224 224 lead then byte_in 160 191 c
  else if byte_in 225 236 lead then byte_in 128 191 c
  else if byte_in 237 237 lead then byte_in 128 159 c
  else if byte_in 238 239 lead then byte_in 128 191 c
  else false.

(** The second byte allowed after the lead byte of a four-byte sequence:
    no overlong forms after [F0], nothing above U+10FFFF after [F4]. *)
Definition second_of_four (lead c : ascii) : bool :=
  if byte_in 240 240 lead then byte_in 144 191 c
  else if byte_in 241 243 lead then byte_in 128 191 c
  else if byte_in 244 244 lead then byte_in 128 143 c
  else false.

(** Whether [bytes.decode()] succeeds, in strict mode with the default
    codec: the bytes are a sequence of well-formed UTF-8 characters. *)
Fixpoint utf8_valid (s : string) : bool :=
  match s with
  | EmptyString => true
  | String b0 r0 =>
      if byte_in 0 127 b0 then utf8_valid r0
      else
        match r0 with
        | EmptyString => false
        | String b1 r1 =>
            if byte_in 194 223 b0 then continuation b1 && utf8_valid r1
            else
              match r1 with
              | EmptyString => false
              | String b2 r2 =>
                  if byte_in 224 239 b0 then
                    second_of_three b0 b1 && continuation b2 && utf8_valid r2
                  else
                    match r2 with
                    | EmptyString => false
                    | String b3 r3 =>
                        second_of_four b0 b1 && continuation b2
                        && continuation b3 && utf8_valid r3
                    end
              end
        end
  end.

(** The argument of [ensure_str]: "a response in bytes or string". *)
Inductive response : Type :=
  | PyStr (s : string)
  | PyBytes (b : string).

Definition ensure_str (r : response) : string :=
  match r with
  | PyStr s => s
  | PyBytes b => if utf8_valid b then b else BINARY_PLACEHOLDER
  end.

(** Whether some byte of the string satisfies [p]. *)
Fixpoint has_byte (p : ascii -> bool) (s : string) : bool :=
  match s with
  | EmptyString => false
  | String c t => p c || has_byte p t
  end.

(** The bytes that occur in no UTF-8 text: [C0], [C1] and [F5] to [FF]. *)
Definition never_in_utf8 (c : ascii) : bool :=
  byte_in 192 193 c || byte_in 245 255 c.

Definition is_ascii_byte (c : ascii) : bool := byte_in 0 127 c.

(** ** Target resolution and archive indexing

    [codalab/worker/download_util.py], which the unit test imports, is
    modelled from the specification of that module, on top of the parser of
    [codalab/common.py]; the model is checked against the values the unit
    test expects. *)

(** Modelled from the spec: the node kinds of [download_util.py], "kind in
    {File, Directory}". *)
Inductive Kind : Type :=
  | File
  | Directory.

(** Modelled from the spec: the permission constants of
    [download_util.py], the "fixed full-access sentinel" (0o777) for the
    root of a remote bundle. *)
Definition ROOT_MODE : N := 511.

(** Modelled from the spec: the permission constant of [download_util.py]
    for an entry without a recorded mode, "default 0644". *)
Definition DEFAULT_MODE : N := 420.

(** Modelled from the spec: the archive decoder behind
    [download_util.py] is an external collaborator; what it yields for one physical entry of the stream is a
    path as written, a kind, a size and the mode if one is recorded. *)
Record RawEntry : Type := mkRawEntry {
  raw_path : string;
  raw_kind : Kind;
  raw_size : N;
  raw_mode : option N
}.

(** Modelled from the spec: [ArchiveEntry] of the data model of
    [download_util.py], the path
    held as its normalized segments. *)
Record ArchiveEntry : Type := mkArchiveEntry {
  entry_path : list string;
  entry_kind : Kind;
  entry_size : N;
  entry_mode : N;
  sequence_index : nat
}.

(** Modelled from the spec: [ArchiveIndex] of [download_util.py], "ordered
    entries". *)
Definition ArchiveIndex : Type := list ArchiveEntry.

(** Modelled from the spec: comparison of paths in the index of
    [download_util.py], "exact, case-sensitive, normalized-segment match". *)
Fixpoint path_eqb (p q : list string) : bool :=
  match p, q with
  | [], [] => true
  | x :: p', y :: q' => String.eqb x y && path_eqb p' q'
  | _, _ => false
  end.

(** Modelled from the spec: path normalization of the indexer of
    [download_util.py], "strip
    leading ./, collapse empty segments". *)
Definition normalize (s : string) : list string :=
  let s' := if Py.startswith s "./" then Py.drop 2 s else s in
  filter (fun seg => negb (String.eqb seg EmptyString))
         (Py.split slash (String.length s') s').

(** Modelled from the spec: the path prefixes the indexer of
    [download_util.py] walks, shortest first, the path itself last. *)
Fixpoint prefixes (p : list string) : list (list string) :=
  match p with
  | [] => []
  | x :: t => [x] :: map (cons x) (prefixes t)
  end.

(** Modelled from the spec: "every proper path-prefix" of an entry, as the
    indexer of [download_util.py] needs them. *)
Definition proper_prefixes (p : list string) : list (list string) :=
  removelast (prefixes p).

(** Modelled from the spec: the indexer's test in [download_util.py] that a
    directory "already exists in the index". *)
Definition has_directory (idx : ArchiveIndex) (p : list string) : bool :=
  existsb (fun e => path_eqb (entry_path e) p
                    && match entry_kind e with Directory => true | File => false end)
          idx.

(** Modelled from the spec: appending to the index of [download_util.py];
    [sequence_index] is the position of first appearance. *)
Definition append_entry (idx : ArchiveIndex) (p : list string) (k : Kind)
    (sz md : N) : ArchiveIndex :=
  (idx ++ [mkArchiveEntry p k sz md (List.length idx)])%list.

(** Modelled from the spec: directory synthesis in the indexer of
    [download_util.py]; a synthesized directory "gets size 0, default
    mode, and is inserted at the point its first child is first required". *)
Definition ensure_directory (idx : ArchiveIndex) (p : list string) : ArchiveIndex :=
  if has_directory idx p then idx
  else append_entry idx p Directory 0%N DEFAULT_MODE.

(** Modelled from the spec: the indexer of [download_util.py] makes "every
    proper path-prefix directory" exist, the shortest first. *)
Definition ensure_parents (idx : ArchiveIndex) (p : list string) : ArchiveIndex :=
  fold_left ensure_directory (proper_prefixes p) idx.

(** Modelled from the spec: one step of the walk of the indexer of
    [download_util.py].  Duplicate
    directory entries are skipped; before an entry is appended every proper
    prefix of its path is made to exist; directories are recorded with
    size 0 and a missing mode becomes the default. *)
Definition index_entry (idx : ArchiveIndex) (r : RawEntry) : ArchiveIndex :=
  let p := normalize (raw_path r) in
  let md := match raw_mode r with Some m => m | None => DEFAULT_MODE end in
  match raw_kind r with
  | Directory =>
      if has_directory idx p then idx
      else append_entry (ensure_parents idx p) p Directory 0%N md
  | File => append_entry (ensure_parents idx p) p File (raw_size r) md
  end.

(** Modelled from the spec: the ArchiveIndexer of [download_util.py], "walk entries in physical
    order". *)
Definition build_index (entries : list RawEntry) : ArchiveIndex :=
  fold_left index_entry entries [].

(** Modelled from the spec: the lookup of the resolver of
    [download_util.py], an exact, case-sensitive match of normalized
    segments. *)
Definition lookup (idx : ArchiveIndex) (p : list string) : option ArchiveEntry :=
  find (fun e => path_eqb (entry_path e) p) idx.

(** Modelled from the spec: the "immediate children" of a directory in the
    resolver of [download_util.py]: the paths one segment longer. *)
Definition is_child_of (d p : list string) : bool :=
  match p with
  | [] => false
  | _ => path_eqb (removelast p) d
  end.

Section FirstAppearances.
Context {A : Type}.
Variable eqb : A -> A -> bool.

(** Modelled from the spec: keeping a child of [download_util.py]'s listing
    the first time it is met. *)
Definition remember (seen : list A) (x : A) : list A :=
  if existsb (eqb x) seen then seen else (seen ++ [x])%list.

(** Modelled from the spec: the "order of first physical appearance" used
    by the listing of [download_util.py]: the distinct elements of a list in
    the order in which each one first
    occurs. *)
Definition first_appearances (l : list A) : list A :=
  fold_left remember l [].
End FirstAppearances.

(** Modelled from the spec: the TargetResolver of [download_util.py], its
    "ordered list of immediate
    children for one level".  Every child subpath is listed once, where it
    first occurs in the index, and resolves to one node. *)
Definition child_paths (idx : ArchiveIndex) (d : list string) : list (list string) :=
  first_appearances path_eqb (filter (is_child_of d) (map entry_path idx)).

(** Modelled from the spec: the child nodes of a directory in the resolver
    of [download_util.py], each child path resolved by [lookup]. *)
Definition children_of (idx : ArchiveIndex) (d : list string) : list ArchiveEntry :=
  flat_map (fun p => match lookup idx p with Some e => [e] | None => [] end)
           (child_paths idx d).

(** Modelled from the spec: the output record [TargetInfo] of
    [download_util.py]; [ti_contents]
    is [None] when the output has no [contents] field. *)
#[local] Unset Elimination Schemes.
Inductive TargetInfo : Type :=
  mkTargetInfo {
    ti_name : string;
    ti_type : Kind;
    ti_size : N;
    ti_perm : N;
    ti_contents : option (list TargetInfo);
    ti_resolved_target : string
  }.
#[local] Set Elimination Schemes.

(** Modelled from the spec: a resolved node of [download_util.py], "{locator, kind, size, mode}",
    with the name it is reported under. *)
Record ResolvedNode : Type := mkResolvedNode {
  node_locator : string;
  node_name : string;
  node_kind : Kind;
  node_size : N;
  node_mode : N
}.

Section TreeSerializer.
Context {Node : Type}.
Variable describe : Node -> ResolvedNode.
Variable list_children : Node -> list Node.

(** Modelled from the spec: the TreeSerializer of [download_util.py].  "depth=0: metadata only,
    no children field at all, regardless of kind.  depth=N>0 on a
    directory: include one level of children, recursing with depth N-1". *)
Fixpoint serialize (depth : nat) (n : Node) : TargetInfo :=
  let r := describe n in
  mkTargetInfo (node_name r) (node_kind r) (node_size r) (node_mode r)
    (match depth with
     | O => None
     | S d =>
         match node_kind r with
         | Directory => Some (map (serialize d) (list_children n))
         | File => None
         end
     end)
    (node_locator r).
End TreeSerializer.

(** Modelled from the spec: building the diagnostic locator in
    [download_util.py], Python's [sep.join(parts)]. *)
Fixpoint join (sep : string) (parts : list string) : string :=
  match parts with
  | [] => EmptyString
  | [x] => x
  | x :: rest => x ++ sep ++ join sep rest
  end.

(** Modelled from the spec: [BundleTarget] of [download_util.py], "bundle_id + relative_subpath
    (slash-separated, normalized, empty = bundle root)". *)
Record BundleTarget : Type := mkBundleTarget {
  bundle_id : string;
  relative_subpath : string
}.

(** *** Archive-backed bundles *)

(** Modelled from the spec: what a subpath of an archive-backed bundle
    resolves to in [download_util.py], the archive object itself or an
    entry of the index. *)
Inductive ArchiveNode : Type :=
  | ArchiveRoot
  | ArchiveMember (e : ArchiveEntry).

(** Modelled from the spec: the inputs of the TargetResolver of
    [download_util.py] for an archive-backed bundle: the object locator,
    the bundle id, the byte length of the object and its index. *)
Record ArchiveView : Type := mkArchiveView {
  view_locator : string;
  view_bundle_id : string;
  view_byte_length : N;
  view_index : ArchiveIndex
}.

(** Modelled from the spec: the subpath an archive node of
    [download_util.py] stands for, empty for the archive object itself. *)
Definition node_path (n : ArchiveNode) : list string :=
  match n with
  | ArchiveRoot => []
  | ArchiveMember e => entry_path e
  end.

(** Modelled from the spec: node metadata in [download_util.py], root
    invariants 1 and 3 (size is the byte
    length of the archive object, mode is the full-access sentinel) and
    invariant 2 (size and mode of an entry come verbatim from the index). *)
Definition describe_archive (v : ArchiveView) (n : ArchiveNode) : ResolvedNode :=
  match n with
  | ArchiveRoot =>
      mkResolvedNode (view_locator v) (view_bundle_id v) Directory
                     (view_byte_length v) ROOT_MODE
  | ArchiveMember e =>
      mkResolvedNode (view_locator v ++ "/" ++ join "/" (entry_path e))
                     (last (entry_path e) EmptyString) (entry_kind e)
                     (entry_size e) (entry_mode e)
  end.

(** Modelled from the spec: the one level of children the resolver of
    [download_util.py] hands to the serializer. *)
Definition archive_children (v : ArchiveView) (n : ArchiveNode) : list ArchiveNode :=
  match n with
  | ArchiveRoot => map ArchiveMember (children_of (view_index v) [])
  | ArchiveMember e =>
      match entry_kind e with
      | Directory => map ArchiveMember (children_of (view_index v) (entry_path e))
      | File => []
      end
  end.

(** Modelled from the spec: the TargetResolver of [download_util.py] on an archive-backed bundle.
    The empty subpath is the archive object itself, any other subpath is
    looked up in the index. *)
Definition resolve_archive (v : ArchiveView) (subpath : string) : option ArchiveNode :=
  match normalize subpath with
  | [] => Some ArchiveRoot
  | p => option_map ArchiveMember (lookup (view_index v) p)
  end.

(** *** Local bundles *)

(** Modelled from the spec: the result of [LocalFilesystem.stat], consumed
    by [download_util.py]. *)
Record Stat : Type := mkStat {
  st_kind : Kind;
  st_size : N;
  st_mode : N
}.

(** Modelled from the spec: the collaborator interface of
    [download_util.py],
    [LocalFilesystem.stat(path)], [.list(path)]. *)
Record LocalFilesystem : Type := mkLocalFilesystem {
  fs_stat : string -> option Stat;
  fs_list : string -> list string
}.

(** Modelled from the spec: a resolved node of a local bundle in
    [download_util.py], a path with its stat. *)
Definition LocalNode : Type := (string * Stat)%type.

(** Modelled from the spec: the [name] of a local node in
    [download_util.py], the last segment of its path. *)
Definition basename (p : string) : string :=
  last (Py.split slash (String.length p) p) EmptyString.

(** Modelled from the spec: node metadata of a local bundle in
    [download_util.py], taken from the filesystem stat. *)
Definition describe_local (n : LocalNode) : ResolvedNode :=
  mkResolvedNode (fst n) (basename (fst n)) (st_kind (snd n))
                 (st_size (snd n)) (st_mode (snd n)).

(** Modelled from the spec: the children of a local directory in
    [download_util.py], [LocalFilesystem.list] in its order. *)
Definition local_children (fs : LocalFilesystem) (n : LocalNode) : list LocalNode :=
  flat_map (fun name =>
              let p := fst n ++ "/" ++ name in
              match fs_stat fs p with
              | Some s => [(p, s)]
              | None => []
              end)
           (fs_list fs (fst n)).

(** *** The pipeline *)

(** Modelled from the spec: the error kinds of [download_util.py], section 7.  A locator the
    parser rejects carries the exception the parser raised. *)
Inductive ResolveError : Type :=
  | MalformedLocator (e : exception)
  | UnsupportedArchiveFormat
  | CorruptArchive
  | NotFound
  | TransientIO.

(** Modelled from the spec: the outcome of decoding a stream as an archive
    in [download_util.py]: its entries, or one of the two archive errors. *)
Inductive Decoded : Type :=
  | Entries (es : list RawEntry)
  | Unsupported
  | Corrupt.

(** Modelled from the spec: what [RemoteObjectReader.open(locator)] gives
    to [download_util.py],
    a stream with its [size()] and the outcome of decoding it as an
    archive. *)
Record RemoteStream : Type := mkRemoteStream {
  stream_size : N;
  stream_decode : Decoded
}.

(** Modelled from the spec: the two collaborators of [download_util.py],
    remote object storage by locator and the local filesystem. *)
Record Storage : Type := mkStorage {
  remote_open : string -> option RemoteStream;
  local_fs : LocalFilesystem
}.

(** Modelled from the spec: what the resolver of [download_util.py] sees of
    an archive-backed bundle. *)
Definition archive_view (lbp : LinkedBundlePath) (target : BundleTarget)
    (stream : RemoteStream) (es : list RawEntry) : ArchiveView :=
  mkArchiveView (bundle_path lbp) (bundle_id target) (stream_size stream)
                (build_index es).

(** Modelled from the spec: the classification [download_util.py] works
    with, sections 4.1 and 6: a remote bundle is archive-backed when its
    object name "ends in a recognized archive suffix (e.g. .zip, .tar.gz)".
    The [is_zip] flag of the parser of [codalab/common.py] answers for the
    first suffix. *)
Definition archive_backed (lbp : LinkedBundlePath) : bool :=
  uses_beam lbp && (is_zip lbp || Py.endswith (bundle_path lbp) ".tar.gz").

(** Modelled from the spec: [get_target_info] of [download_util.py], the
    flow "locator, BundleURLParser, descriptor,
    ArchiveIndexer if archive-backed, index, TargetResolver, node,
    TreeSerializer(node, depth), output tree".  The parser is the one of
    [codalab/common.py]. *)
Definition get_target_info (st : Storage) (bundle_path_ : string)
    (target : BundleTarget) (depth : nat) : ResolveError + TargetInfo :=
  match parse_linked_bundle_url bundle_path_ with
  | Raise e => inl (MalformedLocator e)
  | Return lbp =>
      match storage_type lbp with
      | FILE_STORAGE =>
          let p := match normalize (relative_subpath target) with
                   | [] => bundle_path lbp
                   | segs => bundle_path lbp ++ "/" ++ join "/" segs
                   end in
          match fs_stat (local_fs st) p with
          | None => inl NotFound
          | Some s =>
              inr (serialize describe_local (local_children (local_fs st))
                             depth (p, s))
          end
      | AZURE_BLOB_STORAGE =>
          match remote_open st (bundle_path lbp) with
          | None => inl TransientIO
          | Some stream =>
              if archive_backed lbp then
                match stream_decode stream with
                | Unsupported => inl UnsupportedArchiveFormat
                | Corrupt => inl CorruptArchive
                | Entries es =>
                    let v := archive_view lbp target stream es in
                    match resolve_archive v (relative_subpath target) with
                    | None => inl NotFound
                    | Some n =>
                        inr (serialize (describe_archive v) (archive_children v)
                                       depth n)
                    end
                end
              else
                match normalize (relative_subpath target) with
                | [] =>
                    inr (mkTargetInfo (bundle_id target) File
                           (stream_size stream) ROOT_MODE None (bundle_path lbp))
                | _ => inl NotFound
                end
          end
      end
  end.

(** Modelled from the spec: the children of a directory as the entry stream
    presents them.  An entry whose path lies strictly below [d] makes the
    segment that follows [d] appear. *)
Fixpoint child_under (d p : list string) : list string :=
  match d, p with
  | [], x :: _ => [x]
  | y :: d', x :: p' => if String.eqb x y then child_under d' p' else []
  | _, [] => []
  end.

Definition stream_children (d : list string) (es : list RawEntry) : list string :=
  first_appearances String.eqb
    (flat_map (fun r => child_under d (normalize (raw_path r))) es).

(** Modelled from the spec: what invariant 4 asks of an output tree of
    [download_util.py] serialized with the given depth for the directory at
    path [d]: while depth remains every directory lists, by name, the
    children the entry stream presents below it, in the order of their first
    appearance, and so does every directory listed in turn; a file, and any
    node once the depth is used up, lists nothing. *)
Fixpoint listed_in_stream_order (es : list RawEntry) (depth : nat)
    (d : list string) (ti : TargetInfo) : bool :=
  match depth with
  | O => match ti_contents ti with None => true | Some _ => false end
  | S k =>
      match ti_type ti, ti_contents ti with
      | File, None => true
      | File, Some _ => false
      | Directory, None => false
      | Directory, Some contents =>
          path_eqb (map ti_name contents) (stream_children d es)
          && forallb (fun c =>
                        listed_in_stream_order es k (d ++ [ti_name c])%list c)
                     contents
      end
  end.

(** *** Notions used to state the invariants of the index *)

(** The paths an entry with path [p] makes appear: its proper prefixes,
    then [p] itself. *)
Definition touched (p : list string) : list (list string) :=
  (proper_prefixes p ++ [p])%list.

Definition paths (idx : ArchiveIndex) : list (list string) :=
  map entry_path idx.

(** Every entry of the index has all its proper prefixes as directories. *)
Definition closed (idx : ArchiveIndex) : Prop :=
  forall e, In e idx ->
  forall q, In q (proper_prefixes (entry_path e)) -> has_directory idx q = true.

#[local] Abbreviation FA := (first_appearances path_eqb).
#[local] Abbreviation note := (remember path_eqb).

(** The archive written by [test_nested_directories]. *)
Definition nested_archive : list RawEntry :=
  [ mkRawEntry "./README.md" File 11 (Some 420%N);
    mkRawEntry "./src" Directory 0 (Some 420%N);
    mkRawEntry "./src/test.sh" File 7 (Some 420%N);
    mkRawEntry "./dist" Directory 0 (Some 420%N);
    mkRawEntry "./dist/a" Directory 0 (Some 420%N);
    mkRawEntry "./dist/a/b" Directory 0 (Some 420%N);
    mkRawEntry "./dist/a/b/test2.sh" File 8 (Some 420%N) ].

Definition no_files : LocalFilesystem :=
  mkLocalFilesystem (fun _ => None) (fun _ => []).

(** Remote storage holding one object. *)
Definition single_object (locator : string) (s : RemoteStream) : Storage :=
  mkStorage (fun l => if String.eqb l locator then Some s else None) no_files.

(** The values [test_nested_directories] expects, on a bundle stored under
    a [.zip] object name. *)
Definition zip_locator : string :=
  "azfs://storageclwsdev0/bundles/0.8444218515250481/contents.zip".

Definition nested_storage : Storage :=
  single_object zip_locator (mkRemoteStream 246 (Entries nested_archive)).

(** The locator [test_nested_directories] itself writes to. *)
Definition tar_gz_locator : string :=
  "azfs://storageclwsdev0/bundles/0.8444218515250481/contents.tar.gz".

Definition nested_tar_gz_storage : Storage :=
  single_object tar_gz_locator (mkRemoteStream 246 (Entries nested_archive)).

Definition whole_bundle : BundleTarget :=
  mkBundleTarget "0.8444218515250481" EmptyString.

Definition inside (subpath : string) : BundleTarget :=
  mkBundleTarget "0.8444218515250481" subpath.

Definition leaf (name : string) (sz : N) (loc : string) : TargetInfo :=
  mkTargetInfo name File sz 420 None loc.
(** Sanity checks against the docstring examples. *)
Example parse_single_file :
  parse_linked_bundle_url "azfs://storageclwsdev0/bundles/uuid/contents"
  = Return (mkLinkedBundlePath AZURE_BLOB_STORAGE
              "azfs://storageclwsdev0/bundles/uuid/contents"
              false true None (Some "uuid")).
Proof. reflexivity. Qed.

Example parse_file_in_zip :
  parse_linked_bundle_url "azfs://storageclwsdev0/bundles/uuid/contents.zip/file1"
  = Return (mkLinkedBundlePath AZURE_BLOB_STORAGE
              "azfs://storageclwsdev0/bundles/uuid/contents.zip"
              true true (Some "file1") (Some "uuid")).
Proof. reflexivity. Qed.

Example parse_nested_in_zip :
  parse_linked_bundle_url "azfs://acct/bundles/uuid/contents.zip/a/b/c.txt"
  = Return (mkLinkedBundlePath AZURE_BLOB_STORAGE
              "azfs://acct/bundles/uuid/contents.zip"
              true true (Some "a/b/c.txt") (Some "uuid")).
Proof. reflexivity. Qed.

Example parse_local :
  parse_linked_bundle_url "/var/bundles/0x123/contents.zip"
  = Return (mkLinkedBundlePath FILE_STORAGE "/var/bundles/0x123/contents.zip"
              false false None None).
Proof. reflexivity. Qed.

Example parse_short :
  parse_linked_bundle_url "azfs://acct/bundles"
  = Raise (unpack_error 2).
Proof. reflexivity. Qed.

(** ** Facts about the string primitives *)

Section SplitFacts.
Variable sep : ascii.

Lemma split_not_nil (n : nat) (s : string) : Py.split sep n s <> [].
Proof.
revert n; induction s as [|c t IH]; intros [|n]; simpl; try discriminate.
destruct (Ascii.eqb c sep); [discriminate|].
destruct (Py.split sep (S n) t); discriminate.
Qed.

Lemma split_zero (s : string) : Py.split sep 0 s = [s].
Proof. destruct s; reflexivity. Qed.

Lemma split_length (n : nat) (s : string) :
List.length (Py.split sep n s) = S (Nat.min n (Py.count sep s)).
Proof.
revert n; induction s as [|c t IH]; intros [|n]; simpl; try reflexivity.
destruct (Ascii.eqb c sep) eqn:E; simpl.
- now rewrite IH.
- specialize (IH (S n)).
  destruct (Py.split sep (S n) t) as [|h r] eqn:Es.
  + now apply split_not_nil in Es.
  + simpl in *. exact IH.
Qed.

Lemma split_free (n : nat) (a : string) :
Py.count sep a = 0 -> Py.split sep n a = [a].
Proof.
destruct n as [|n]; [intros _; apply split_zero|].
induction a as [|c t IH]; simpl; [reflexivity|].
destruct (Ascii.eqb c sep); [discriminate|].
intros H. now rewrite (IH H).
Qed.

Lemma split_cons_free (n : nat) (a r : string) :
Py.count sep a = 0 ->
Py.split sep (S n) (a ++ String sep r) = a :: Py.split sep n r.
Proof.
induction a as [|c t IH]; simpl.
- intros _. now rewrite Ascii.eqb_refl.
- destruct (Ascii.eqb c sep); [discriminate|].
  intros H. now rewrite (IH H).
Qed.

End SplitFacts.

Lemma drop_app (p s : string) : Py.drop (String.length p) (p ++ s) = s.
Proof. induction p; simpl; auto. Qed.

Lemma append_assoc (a b c : string) : (a ++ b) ++ c = a ++ (b ++ c).
Proof. induction a; simpl; congruence. Qed.

Lemma startswith_app (p s : string) : Py.startswith (p ++ s) p = true.
Proof.
  unfold Py.startswith. induction p as [|c p IH]; simpl.
  - now destruct s.
  - destruct (ascii_dec c c); [exact IH|congruence].
Qed.

(** Every successful parse of a remote locator has this shape. *)
Lemma parse_remote_shape (a b c d : string) (tail : option string) :
  Py.count slash a = 0 -> Py.count slash b = 0 ->
  Py.count slash c = 0 -> Py.count slash d = 0 ->
  parse_linked_bundle_url
    ("azfs://" ++ a ++ "/" ++ b ++ "/" ++ c ++ "/" ++ d
       ++ match tail with Some r => "/" ++ r | None => EmptyString end)
  = Return (mkLinkedBundlePath AZURE_BLOB_STORAGE
              ("azfs://" ++ a ++ "/" ++ b ++ "/" ++ c ++ "/" ++ d)
              (Py.endswith d ".zip") true
              (if Py.endswith d ".zip" then tail else None)
              (Some c)).
Proof.
  intros Ha Hb Hc Hd.
  unfold parse_linked_bundle_url.
  rewrite startswith_app, drop_app.
  cbn [String.append].
  change "/"%char with slash.
  rewrite !split_cons_free by assumption.
  destruct tail as [r|]; cbn [String.append].
  - change "/"%char with slash.
    rewrite split_cons_free, split_zero by assumption.
    cbn. now destruct (Py.endswith d ".zip").
  - replace (d ++ EmptyString) with d by (clear; induction d; simpl; congruence).
    rewrite split_free by assumption.
    cbn. now rewrite andb_false_r; destruct (Py.endswith d ".zip").
Qed.

Lemma startswith_inv (s p : string) :
  Py.startswith s p = true -> s = p ++ Py.drop (String.length p) s.
Proof.
  unfold Py.startswith. revert s.
  induction p as [|c p IH]; intros s; simpl; [reflexivity|].
  destruct s as [|c' s]; simpl; [discriminate|].
  destruct (ascii_dec c c') as [->|]; [|discriminate].
  intros H. now rewrite <- (IH s H).
Qed.

Lemma append_empty_r (s : string) : s ++ EmptyString = s.
Proof. induction s; simpl; congruence. Qed.

Lemma count_app (sep : ascii) (a b : string) :
  Py.count sep (a ++ b) = Py.count sep a + Py.count sep b.
Proof. induction a; simpl; lia. Qed.

(** A string with a separator in it is cut at the first one. *)
Lemma cut_first (sep : ascii) (s : string) :
  Py.count sep s <> 0 ->
  exists a r, s = a ++ String sep r /\ Py.count sep a = 0
              /\ Py.count sep s = S (Py.count sep r).
Proof.
  induction s as [|c t IH]; simpl; [congruence|].
  destruct (Ascii.eqb c sep) eqn:E.
  - intros _. apply Ascii.eqb_eq in E; subst c.
    exists EmptyString, t. simpl. auto.
  - intros H. destruct (IH H) as (a & r & -> & Ha & Hr).
    exists (String c a), r. simpl. rewrite E. auto.
Qed.


Lemma remote_locator_decompose (url : string) :
  Py.startswith url "azfs://" = true ->
  3 <= Py.count slash (Py.drop 7 url) ->
  exists a b c d tail,
    url = "azfs://" ++ remote_text a b c d tail
    /\ Py.count slash a = 0 /\ Py.count slash b = 0
    /\ Py.count slash c = 0 /\ Py.count slash d = 0
    /\ (tail = None <-> Py.count slash (Py.drop 7 url) = 3).
Proof.
  intros Hp Hn. apply startswith_inv in Hp.
  change (String.length "azfs://") with 7 in Hp.
  set (rest := Py.drop 7 url) in *.
  destruct (cut_first slash rest) as (a & r1 & E1 & Ha & N1); [lia|].
  destruct (cut_first slash r1) as (b & r2 & E2 & Hb & N2); [lia|].
  destruct (cut_first slash r2) as (c & r3 & E3 & Hc & N3); [lia|].
  destruct (Nat.eq_dec (Py.count slash r3) 0) as [Z|NZ].
  - exists a, b, c, r3, None. unfold remote_text.
    rewrite append_empty_r. cbn [String.append].
    repeat split; auto; try lia.
    rewrite Hp, E1, E2, E3. reflexivity.
  - destruct (cut_first slash r3 NZ) as (d & r4 & E4 & Hd & N4).
    exists a, b, c, d, (Some r4). unfold remote_text. cbn [String.append].
    repeat split; auto; try discriminate; try lia.
    rewrite Hp, E1, E2, E3, E4. reflexivity.
Qed.

Lemma parse_remote_text (a b c d : string) (tail : option string) :
  Py.count slash a = 0 -> Py.count slash b = 0 ->
  Py.count slash c = 0 -> Py.count slash d = 0 ->
  parse_linked_bundle_url ("azfs://" ++ remote_text a b c d tail)
  = Return (mkLinkedBundlePath AZURE_BLOB_STORAGE
              ("azfs://" ++ a ++ "/" ++ b ++ "/" ++ c ++ "/" ++ d)
              (Py.endswith d ".zip") true
              (if Py.endswith d ".zip" then tail else None)
              (Some c)).
Proof. exact (parse_remote_shape a b c d tail). Qed.

(** A remote locator is parsed exactly when four segments are present. *)
Lemma parse_remote_short (url : string) :
  Py.startswith url "azfs://" = true ->
  Py.count slash (Py.drop 7 url) < 3 ->
  parse_linked_bundle_url url
  = Raise (unpack_error (S (Py.count slash (Py.drop 7 url)))).
Proof.
  intros Hp Hn. unfold parse_linked_bundle_url. rewrite Hp.
  change (String.length "azfs://") with 7.
  pose proof (split_length slash 4 (Py.drop 7 url)) as L.
  rewrite Nat.min_r in L by lia.
  destruct (Py.split slash 4 (Py.drop 7 url)) as [|x1 [|x2 [|x3 [|x4 r]]]];
    cbn [List.length] in L; try lia; rewrite <- L; reflexivity.
Qed.

(** ** Properties of [parse_linked_bundle_url] *)

(** What a successful parse says about its input. *)
Lemma parse_return_inv (url : string) (lbp : LinkedBundlePath) :
  parse_linked_bundle_url url = Return lbp ->
  (Py.startswith url "azfs://" = false
   /\ lbp = mkLinkedBundlePath FILE_STORAGE url false false None None)
  \/ (Py.startswith url "azfs://" = true
      /\ exists a b c d tail,
           url = "azfs://" ++ remote_text a b c d tail
           /\ Py.count slash a = 0 /\ Py.count slash b = 0
           /\ Py.count slash c = 0 /\ Py.count slash d = 0
           /\ (tail = None <-> Py.count slash (Py.drop 7 url) = 3)
           /\ 3 <= Py.count slash (Py.drop 7 url)
           /\ lbp = mkLinkedBundlePath AZURE_BLOB_STORAGE
                      ("azfs://" ++ a ++ "/" ++ b ++ "/" ++ c ++ "/" ++ d)
                      (Py.endswith d ".zip") true
                      (if Py.endswith d ".zip" then tail else None)
                      (Some c)).
Proof.
  intros H.
  destruct (Py.startswith url "azfs://") eqn:Hp.
  - right. split; [reflexivity|].
    destruct (Nat.lt_ge_cases (Py.count slash (Py.drop 7 url)) 3) as [Hs|Hl].
    + rewrite (parse_remote_short url Hp Hs) in H. discriminate.
    + destruct (remote_locator_decompose url Hp Hl)
        as (a & b & c & d & tail & E & Ha & Hb & Hc & Hd & Ht).
      exists a, b, c, d, tail. repeat (split; [assumption|]).
      rewrite E, (parse_remote_text a b c d tail Ha Hb Hc Hd) in H.
      now injection H as <-.
  - left. split; [reflexivity|].
    unfold parse_linked_bundle_url in H. rewrite Hp in H.
    now injection H as <-.
Qed.

(** C2 (code at the failing input): the locator written by
    [test_nested_directories], whose object name ends in [.tar.gz], is parsed
    with [is_zip = False]; only the [.zip] suffix is tested. *)
Theorem tar_gz_locator_is_not_zip :
  parse_linked_bundle_url
    "azfs://storageclwsdev0/bundles/0.8444218515250481/contents.tar.gz"
  = Return (mkLinkedBundlePath AZURE_BLOB_STORAGE
              "azfs://storageclwsdev0/bundles/0.8444218515250481/contents.tar.gz"
              false true None (Some "0.8444218515250481"))
  /\ parse_linked_bundle_url
       "azfs://storageclwsdev0/bundles/0.8444218515250481/contents.tar.gz/src"
     = Return (mkLinkedBundlePath AZURE_BLOB_STORAGE
                 "azfs://storageclwsdev0/bundles/0.8444218515250481/contents.tar.gz"
                 false true None (Some "0.8444218515250481")).
Proof. split; reflexivity. Qed.

(** The classification the code does implement: a remote object name is an
    archive exactly when it ends in [.zip]. *)
Lemma remote_is_zip_iff_zip_suffix (a b c d : string) (tail : option string) :
  Py.count slash a = 0 -> Py.count slash b = 0 ->
  Py.count slash c = 0 -> Py.count slash d = 0 ->
  exists lbp,
    parse_linked_bundle_url ("azfs://" ++ remote_text a b c d tail) = Return lbp
    /\ is_zip lbp = Py.endswith d ".zip".
Proof.
  intros Ha Hb Hc Hd. eexists. split.
  - apply parse_remote_text; assumption.
  - reflexivity.
Qed.

(** C3 as stated fails: a remote locator with two segments raises the
    built-in [ValueError] of the unpacking, not an error class of the
    module. *)
Lemma short_locator_error_is_not_dedicated :
  ~ fails_with_dedicated_error "azfs://storageclwsdev0/bundles".
Proof.
  intros (e & H & D). vm_compute in H. injection H as <-. discriminate D.
Qed.

(** C3 (amended): a locator with the remote scheme and fewer than four
    segments after it makes the parser raise the built-in [ValueError] of
    the failed unpacking, which reports how many segments were found. *)
Theorem short_remote_locator_raises_ValueError (url : string) :
  Py.startswith url "azfs://" = true ->
  Py.count slash (Py.drop 7 url) < 3 ->
  exists e,
    parse_linked_bundle_url url = Raise e
    /\ exn_type e = ValueError
    /\ e = unpack_error (S (Py.count slash (Py.drop 7 url))).
Proof.
  intros Hp Hs. eexists. split; [apply parse_remote_short; assumption|].
  split; reflexivity.
Qed.

Lemma short_remote_locator_raises_ValueError_witness :
  exists e,
    parse_linked_bundle_url "azfs://storageclwsdev0/bundles/uuid" = Raise e
    /\ exn_type e = ValueError
    /\ e = unpack_error 3.
Proof.
  apply (short_remote_locator_raises_ValueError
           "azfs://storageclwsdev0/bundles/uuid").
  - reflexivity.
  - simpl. lia.
Defined.

(** C7: a locator without the remote scheme is returned as a local path:
    the path is the input itself, [is_zip] and [uses_beam] are false, and
    there is no bundle uuid. *)
Theorem local_locator_is_kept_verbatim (url : string) :
  Py.startswith url "azfs://" = false ->
  parse_linked_bundle_url url
  = Return (mkLinkedBundlePath FILE_STORAGE url false false None None).
Proof.
  intros Hp. unfold parse_linked_bundle_url. now rewrite Hp.
Qed.

Lemma local_locator_is_kept_verbatim_witness :
  parse_linked_bundle_url "/home/codalab/bundles/0x1/contents.zip/a"
  = Return (mkLinkedBundlePath FILE_STORAGE
              "/home/codalab/bundles/0x1/contents.zip/a"
              false false None None).
Proof.
  apply (local_locator_is_kept_verbatim
           "/home/codalab/bundles/0x1/contents.zip/a").
  reflexivity.
Defined.




(** C10: when the object name is not classified as an archive,
    [zip_subpath] is [None] whatever follows the fourth segment; it is set
    exactly when the object is classified as an archive and a fifth segment
    is present. *)
Theorem zip_subpath_only_inside_archives (url : string) (lbp : LinkedBundlePath) :
  parse_linked_bundle_url url = Return lbp ->
  (is_zip lbp = false -> zip_subpath lbp = None)
  /\ (zip_subpath lbp <> None
      <-> Py.startswith url "azfs://" = true
          /\ is_zip lbp = true
          /\ 4 <= Py.count slash (Py.drop 7 url)).
Proof.
  intros H.
  destruct (parse_return_inv url lbp H)
    as [(Hp & ->) | (Hp & a & b & c & d & tail & E & _ & _ & _ & _ & Ht & Hl & ->)].
  - cbn [is_zip zip_subpath]. split; [reflexivity|]. split; [congruence|].
    intros (Hq & _). congruence.
  - cbn [is_zip zip_subpath]. destruct (Py.endswith d ".zip").
    + split; [discriminate|]. split.
      * intros Hn. repeat split; auto.
        destruct (Nat.eq_dec (Py.count slash (Py.drop 7 url)) 3) as [E3|]; [|lia].
        apply Ht in E3. contradiction.
      * intros (_ & _ & H4) Hn. apply Ht in Hn. lia.
    + split; [reflexivity|]. split; [congruence|].
      intros (_ & Hf & _). discriminate.
Qed.

Lemma zip_subpath_only_inside_archives_witness :
  parse_linked_bundle_url "azfs://acct/bundles/0x1/contents/src/test.sh"
  = Return (mkLinkedBundlePath AZURE_BLOB_STORAGE
              "azfs://acct/bundles/0x1/contents" false true None (Some "0x1"))
  /\ zip_subpath
       (mkLinkedBundlePath AZURE_BLOB_STORAGE
          "azfs://acct/bundles/0x1/contents" false true None (Some "0x1"))
     = None.
Proof.
  split; [reflexivity|].
  apply (zip_subpath_only_inside_archives
           "azfs://acct/bundles/0x1/contents/src/test.sh"
           (mkLinkedBundlePath AZURE_BLOB_STORAGE
              "azfs://acct/bundles/0x1/contents" false true None (Some "0x1"))).
  - reflexivity.
  - reflexivity.
Defined.

(** ** HTTP error translation *)

Lemma isinstance_mapped (e : exception) :
  (exists c, In c (map snd http_codes_and_exceptions) /\ isinstance e c = true)
  <-> In (exn_type e) [PermissionError; AuthorizationError; NotFoundError; UsageError].
Proof.
  destruct e as [t m]. unfold isinstance. cbn [exn_type]. split.
  - intros (c & Hc & Hi). cbn in Hc.
    destruct Hc as [<-|[<-|[<-|[<-|[]]]]]; destruct t; cbn in *;
      try discriminate; tauto.
  - intros Hin. cbn in Hin.
    destruct Hin as [<-|[<-|[<-|[<-|[]]]]];
      [exists PermissionError | exists AuthorizationError
       | exists NotFoundError | exists UsageError]; cbn; tauto.
Qed.

(** C9: an exception that is an instance of one of the four mapped classes
    is sent to a code from which [http_error_to_exception] rebuilds an
    exception of the same class with the same message. *)
Theorem http_error_round_trip (e : exception) :
  (exists c, In c (map snd http_codes_and_exceptions) /\ isinstance e c = true) ->
  http_error_to_exception (fst (exception_to_http_error e))
                          (snd (exception_to_http_error e))
  = e.
Proof.
  intros H. apply isinstance_mapped in H.
  destruct e as [t m]. cbn in H.
  destruct H as [<-|[<-|[<-|[<-|[]]]]]; reflexivity.
Qed.

Lemma http_error_round_trip_witness :
  http_error_to_exception
    (fst (exception_to_http_error (mkException NotFoundError "no such bundle")))
    (snd (exception_to_http_error (mkException NotFoundError "no such bundle")))
  = mkException NotFoundError "no such bundle".
Proof.
  apply (http_error_round_trip (mkException NotFoundError "no such bundle")).
  exists NotFoundError. split; [simpl; tauto | reflexivity].
Defined.

(** Outside the four mapped classes the translation loses the class. *)
Example integrity_error_round_trip :
  http_error_to_exception
    (fst (exception_to_http_error (mkException IntegrityError "bad row")))
    (snd (exception_to_http_error (mkException IntegrityError "bad row")))
  = mkException Exception "bad row".
Proof. reflexivity. Qed.

(** ** Paths *)

Lemma path_eqb_eq (p q : list string) : path_eqb p q = true <-> p = q.
Proof.
  revert q; induction p as [|x p IH]; intros [|y q]; simpl;
    try (split; [discriminate|congruence]); try tauto.
  rewrite andb_true_iff, String.eqb_eq, IH.
  split; [intros [-> ->]; reflexivity | intros [= -> ->]; auto].
Qed.

Lemma path_eqb_refl (p : list string) : path_eqb p p = true.
Proof. now apply path_eqb_eq. Qed.

Lemma prefixes_snoc (p : list string) (x : string) :
  prefixes (p ++ [x]) = (prefixes p ++ [p ++ [x]])%list.
Proof.
  induction p as [|y p IH]; simpl; [reflexivity|].
  now rewrite IH, map_app.
Qed.

Lemma prefixes_not_nil (p q : list string) : In q (prefixes p) -> q <> [].
Proof.
  destruct p as [|x t]; simpl; [tauto|].
  intros [<-|H]; [discriminate|].
  apply in_map_iff in H. destruct H as (q' & <- & _). discriminate.
Qed.


Lemma touched_nonempty (p : list string) : p <> [] -> touched p = prefixes p.
Proof.
  intros Hp. unfold touched, proper_prefixes.
  destruct (exists_last Hp) as (p' & x & ->).
  now rewrite prefixes_snoc, removelast_last.
Qed.

Lemma proper_prefixes_snoc (p : list string) (x : string) :
  proper_prefixes (p ++ [x]) = prefixes p.
Proof. unfold proper_prefixes. now rewrite prefixes_snoc, removelast_last. Qed.

Lemma is_child_of_cons (y y' : string) (d q : list string) :
  q <> [] ->
  is_child_of (y' :: d) (y :: q) = String.eqb y y' && is_child_of d q.
Proof. destruct q; [congruence|reflexivity]. Qed.

Lemma filter_children_cons (y y' : string) (d : list string)
    (l : list (list string)) :
  (forall q, In q l -> q <> []) ->
  filter (is_child_of (y' :: d)) (map (cons y) l)
  = if String.eqb y y' then map (cons y) (filter (is_child_of d) l) else [].
Proof.
  induction l as [|q l IH]; intros Hne; cbn [map filter].
  - now destruct (String.eqb y y').
  - rewrite is_child_of_cons by (apply Hne; now left).
    rewrite IH by (intros q' Hq'; apply Hne; now right).
    destruct (String.eqb y y'); [|reflexivity].
    cbn [andb]. now destruct (is_child_of d q).
Qed.

Lemma filter_children_root (y : string) (l : list (list string)) :
  (forall q, In q l -> q <> []) ->
  filter (is_child_of []) (map (cons y) l) = [].
Proof.
  induction l as [|q l IH]; intros Hne; cbn [map filter]; [reflexivity|].
  rewrite IH by (intros q' Hq'; apply Hne; now right).
  destruct q as [|z q]; [now exfalso; apply (Hne []); [left|]|reflexivity].
Qed.

(** Among the prefixes of [p], the children of [d] are the one segment
    that follows [d] on the way to [p]. *)
Lemma children_among_prefixes (d p : list string) :
  filter (is_child_of d) (prefixes p)
  = map (fun x => (d ++ [x])%list) (child_under d p).
Proof.
  revert d; induction p as [|y t IH]; intros d.
  - now destruct d.
  - cbn [prefixes filter]. destruct d as [|y' d'].
    + rewrite filter_children_root by apply prefixes_not_nil. reflexivity.
    + rewrite filter_children_cons by apply prefixes_not_nil.
      cbn [is_child_of removelast path_eqb child_under].
      destruct (String.eqb y y') eqn:E; [|reflexivity].
      apply String.eqb_eq in E; subst y'.
      now rewrite IH, map_map.
Qed.

Lemma children_among_touched (d p : list string) :
  filter (is_child_of d) (touched p)
  = map (fun x => (d ++ [x])%list) (child_under d p).
Proof.
  destruct p as [|y t].
  - now destruct d.
  - rewrite touched_nonempty by discriminate. apply children_among_prefixes.
Qed.

(** ** First appearances *)

Section FirstAppearancesFacts.
Context {A : Type}.
Variable eqb : A -> A -> bool.
Hypothesis eqb_eq : forall x y, eqb x y = true <-> x = y.

Lemma seen_iff (x : A) (l : list A) : existsb (eqb x) l = true <-> In x l.
Proof.
  rewrite existsb_exists. split.
  - intros (y & Hy & E). apply eqb_eq in E. now subst.
  - intros H. exists x. split; [assumption|now apply eqb_eq].
Qed.

Lemma remember_seen (s : list A) (x : A) : In x s -> remember eqb s x = s.
Proof. intros H. unfold remember. apply seen_iff in H. now rewrite H. Qed.

Lemma remember_all_seen (l s : list A) :
  (forall x, In x l -> In x s) -> fold_left (remember eqb) l s = s.
Proof.
  induction l as [|x l IH]; intros H; cbn [fold_left]; [reflexivity|].
  rewrite remember_seen by (apply H; now left).
  apply IH. intros y Hy. apply H. now right.
Qed.

Lemma in_remember (s : list A) (x y : A) :
  In y (remember eqb s x) <-> In y s \/ y = x.
Proof.
  unfold remember. destruct (existsb (eqb x) s) eqn:E.
  - apply seen_iff in E. split; [tauto|]. intros [H| ->]; assumption.
  - rewrite in_app_iff. simpl. intuition congruence.
Qed.

Lemma in_fold_remember (l s : list A) (y : A) :
  In y (fold_left (remember eqb) l s) <-> In y s \/ In y l.
Proof.
  revert s; induction l as [|x l IH]; intros s; cbn [fold_left].
  - simpl. tauto.
  - rewrite IH, in_remember. simpl. intuition congruence.
Qed.

Lemma in_first_appearances (l : list A) (y : A) :
  In y (first_appearances eqb l) <-> In y l.
Proof. unfold first_appearances. rewrite in_fold_remember. simpl. tauto. Qed.

(** Appending one element to the list appends its first appearance. *)
Lemma first_appearances_snoc (l : list A) (x : A) :
  first_appearances eqb (l ++ [x])
  = remember eqb (first_appearances eqb l) x.
Proof. unfold first_appearances. now rewrite fold_left_app. Qed.

Lemma first_appearances_app (l1 l2 : list A) :
  first_appearances eqb (l1 ++ l2)
  = fold_left (remember eqb) l2 (first_appearances eqb l1).
Proof. unfold first_appearances. now rewrite fold_left_app. Qed.

(** Selecting before or after taking first appearances is the same. *)
Lemma fold_remember_filter (f : A -> bool) (l s : list A) :
  fold_left (remember eqb) (filter f l) (filter f s)
  = filter f (fold_left (remember eqb) l s).
Proof.
  revert s; induction l as [|x l IH]; intros s; cbn [filter fold_left];
    [reflexivity|].
  destruct (f x) eqn:Fx; cbn [fold_left]; rewrite <- IH; f_equal;
    unfold remember.
  - destruct (existsb (eqb x) s) eqn:E.
    + apply seen_iff in E.
      assert (In x (filter f s)) as Hin by (apply filter_In; auto).
      apply seen_iff in Hin. now rewrite Hin.
    + assert (existsb (eqb x) (filter f s) = false) as ->.
      { apply not_true_is_false. intros Hin. apply seen_iff in Hin.
        apply filter_In in Hin. destruct Hin as [Hin _].
        apply seen_iff in Hin. congruence. }
      rewrite filter_app. cbn [filter]. now rewrite Fx.
  - destruct (existsb (eqb x) s); [reflexivity|].
    rewrite filter_app. cbn [filter]. rewrite Fx. now rewrite app_nil_r.
Qed.

Lemma first_appearances_filter (f : A -> bool) (l : list A) :
  first_appearances eqb (filter f l) = filter f (first_appearances eqb l).
Proof. exact (fold_remember_filter f l []). Qed.
End FirstAppearancesFacts.

(** First appearances commute with a map that preserves the comparison. *)
Lemma fold_remember_map {A B : Type} (eqa : A -> A -> bool)
    (eqb : B -> B -> bool) (g : A -> B) :
  (forall x y, eqb (g x) (g y) = eqa x y) ->
  forall l s,
    fold_left (remember eqb) (map g l) (map g s)
    = map g (fold_left (remember eqa) l s).
Proof.
  intros Hg. induction l as [|x l IH]; intros s; cbn [map fold_left];
    [reflexivity|].
  rewrite <- IH. f_equal. unfold remember.
  assert (existsb (eqb (g x)) (map g s) = existsb (eqa x) s) as ->.
  { clear IH. induction s as [|y s IHs]; cbn [map existsb]; [reflexivity|].
    now rewrite Hg, IHs. }
  destruct (existsb (eqa x) s); [reflexivity|].
  now rewrite map_app.
Qed.

Lemma first_appearances_map {A B : Type} (eqa : A -> A -> bool)
    (eqb : B -> B -> bool) (g : A -> B) (l : list A) :
  (forall x y, eqb (g x) (g y) = eqa x y) ->
  first_appearances eqb (map g l) = map g (first_appearances eqa l).
Proof. intros Hg. exact (fold_remember_map eqa eqb g Hg l []). Qed.

(** ** The index *)



Lemma has_directory_in (idx : ArchiveIndex) (p : list string) :
  has_directory idx p = true ->
  exists e, In e idx /\ entry_path e = p /\ entry_kind e = Directory.
Proof.
  unfold has_directory. rewrite existsb_exists.
  intros (e & He & H). apply andb_true_iff in H. destruct H as [Hp Hk].
  apply path_eqb_eq in Hp. exists e. repeat split; auto.
  now destruct (entry_kind e).
Qed.

Lemma has_directory_paths (idx : ArchiveIndex) (p : list string) :
  has_directory idx p = true -> In p (paths idx).
Proof.
  intros H. destruct (has_directory_in idx p H) as (e & He & <- & _).
  now apply in_map.
Qed.

Lemma has_directory_app (idx l : ArchiveIndex) (p : list string) :
  has_directory idx p = true -> has_directory (idx ++ l)%list p = true.
Proof.
  unfold has_directory. rewrite existsb_app. intros ->. reflexivity.
Qed.

Lemma has_directory_appended (idx : ArchiveIndex) (p : list string) (sz md : N) :
  has_directory (append_entry idx p Directory sz md) p = true.
Proof.
  unfold has_directory, append_entry. rewrite existsb_app. cbn.
  rewrite path_eqb_refl. cbn. apply orb_true_r.
Qed.

Lemma has_directory_ensured (idx : ArchiveIndex) (p : list string) :
  has_directory (ensure_directory idx p) p = true.
Proof.
  unfold ensure_directory. destruct (has_directory idx p) eqn:E; [exact E|].
  apply has_directory_appended.
Qed.

Lemma has_directory_ensure_mono (idx : ArchiveIndex) (p q : list string) :
  has_directory idx q = true -> has_directory (ensure_directory idx p) q = true.
Proof.
  intros H. unfold ensure_directory. destruct (has_directory idx p); [exact H|].
  now apply has_directory_app.
Qed.

Lemma closed_nil : closed [].
Proof. intros e []. Qed.

Lemma closed_append (idx : ArchiveIndex) (p : list string) (k : Kind) (sz md : N) :
  closed idx ->
  (forall q, In q (proper_prefixes p) -> has_directory idx q = true) ->
  closed (append_entry idx p k sz md).
Proof.
  intros Hc Hp e He q Hq. unfold append_entry in *.
  apply has_directory_app. apply in_app_or in He. destruct He as [He|[<-|[]]].
  - now apply (Hc e).
  - now apply Hp.
Qed.

(** Ensuring every prefix of [p], shortest first, keeps the index closed and
    leaves each of them present as a directory. *)
Lemma ensure_prefixes_closed (p : list string) :
  forall idx, closed idx ->
    closed (fold_left ensure_directory (prefixes p) idx)
    /\ forall q, In q (prefixes p) ->
         has_directory (fold_left ensure_directory (prefixes p) idx) q = true.
Proof.
  induction p as [|x p IH] using rev_ind; intros idx Hc.
  - split; [exact Hc|intros q []].
  - rewrite prefixes_snoc, fold_left_app. cbn [fold_left].
    destruct (IH idx Hc) as [Hc' Hq'].
    set (idx' := fold_left ensure_directory (prefixes p) idx) in *.
    split.
    + unfold ensure_directory.
      destruct (has_directory idx' (p ++ [x])%list); [exact Hc'|].
      apply closed_append; [exact Hc'|].
      rewrite proper_prefixes_snoc. exact Hq'.
    + intros q Hq. apply in_app_or in Hq. destruct Hq as [Hq|[<-|[]]].
      * apply has_directory_ensure_mono. now apply Hq'.
      * apply has_directory_ensured.
Qed.

Lemma ensure_parents_closed (idx : ArchiveIndex) (p : list string) :
  closed idx ->
  closed (ensure_parents idx p)
  /\ forall q, In q (proper_prefixes p) ->
       has_directory (ensure_parents idx p) q = true.
Proof.
  intros Hc. unfold ensure_parents.
  destruct p as [|y t] using rev_ind.
  - split; [exact Hc|intros q []].
  - rewrite proper_prefixes_snoc. now apply ensure_prefixes_closed.
Qed.

Lemma index_entry_closed (idx : ArchiveIndex) (r : RawEntry) :
  closed idx -> closed (index_entry idx r).
Proof.
  intros Hc. unfold index_entry.
  destruct (ensure_parents_closed idx (normalize (raw_path r)) Hc) as [Hc' Hp].
  destruct (raw_kind r).
  - now apply closed_append.
  - destruct (has_directory idx (normalize (raw_path r))); [exact Hc|].
    now apply closed_append.
Qed.

Lemma build_closed (es : list RawEntry) :
  forall idx, closed idx -> closed (fold_left index_entry es idx).
Proof.
  induction es as [|r es IH]; intros idx Hc; cbn [fold_left]; [exact Hc|].
  apply IH. now apply index_entry_closed.
Qed.

(** *** First appearances of the paths of the index *)


Lemma fa_append (idx : ArchiveIndex) (p : list string) (k : Kind) (sz md : N) :
  FA (paths (append_entry idx p k sz md)) = note (FA (paths idx)) p.
Proof.
  unfold paths, append_entry. rewrite map_app. cbn [map entry_path].
  apply first_appearances_snoc.
Qed.

Lemma fa_ensure_directory (idx : ArchiveIndex) (q : list string) :
  FA (paths (ensure_directory idx q)) = note (FA (paths idx)) q.
Proof.
  unfold ensure_directory. destruct (has_directory idx q) eqn:E.
  - symmetry. apply (remember_seen path_eqb path_eqb_eq).
    apply (in_first_appearances path_eqb path_eqb_eq).
    now apply has_directory_paths.
  - apply fa_append.
Qed.

Lemma fa_ensure_all (l : list (list string)) :
  forall idx,
    FA (paths (fold_left ensure_directory l idx))
    = fold_left note l (FA (paths idx)).
Proof.
  induction l as [|q l IH]; intros idx; cbn [fold_left]; [reflexivity|].
  now rewrite IH, fa_ensure_directory.
Qed.

Lemma fa_appended_after_parents (idx : ArchiveIndex) (p : list string)
    (k : Kind) (sz md : N) :
  FA (paths (append_entry (ensure_parents idx p) p k sz md))
  = fold_left note (touched p) (FA (paths idx)).
Proof.
  rewrite fa_append. unfold ensure_parents, touched.
  now rewrite fa_ensure_all, fold_left_app.
Qed.

(** One step of the indexer adds the first appearances of the paths the
    entry touches. *)
Lemma fa_index_entry (idx : ArchiveIndex) (r : RawEntry) :
  closed idx ->
  FA (paths (index_entry idx r))
  = fold_left note (touched (normalize (raw_path r))) (FA (paths idx)).
Proof.
  intros Hc. unfold index_entry.
  set (p := normalize (raw_path r)).
  destruct (raw_kind r); [apply fa_appended_after_parents|].
  destruct (has_directory idx p) eqn:E; [|apply fa_appended_after_parents].
  symmetry. apply (remember_all_seen path_eqb path_eqb_eq).
  intros q Hq. apply (in_first_appearances path_eqb path_eqb_eq).
  destruct (has_directory_in idx p E) as (e & He & Hp & _).
  unfold touched in Hq. apply in_app_or in Hq. destruct Hq as [Hq|[<-|[]]].
  - apply has_directory_paths. apply (Hc e He). now rewrite Hp.
  - rewrite <- Hp. now apply in_map.
Qed.

Lemma fa_build (es : list RawEntry) :
  forall idx, closed idx ->
    FA (paths (fold_left index_entry es idx))
    = fold_left note
        (flat_map (fun r => touched (normalize (raw_path r))) es)
        (FA (paths idx)).
Proof.
  induction es as [|r es IH]; intros idx Hc; cbn [fold_left flat_map];
    [reflexivity|].
  rewrite IH by now apply index_entry_closed.
  now rewrite fold_left_app, fa_index_entry.
Qed.

Lemma filter_flat_map {A B : Type} (f : B -> bool) (g : A -> list B)
    (l : list A) :
  filter f (flat_map g l) = flat_map (fun a => filter f (g a)) l.
Proof.
  induction l as [|a l IH]; cbn [flat_map]; [reflexivity|].
  now rewrite filter_app, IH.
Qed.

Lemma flat_map_map_inner {A B C : Type} (h : B -> C) (g : A -> list B)
    (l : list A) :
  flat_map (fun a => map h (g a)) l = map h (flat_map g l).
Proof.
  induction l as [|a l IH]; cbn [flat_map]; [reflexivity|].
  now rewrite map_app, IH.
Qed.

Lemma path_eqb_snoc (d : list string) (x y : string) :
  path_eqb (d ++ [x]) (d ++ [y]) = String.eqb x y.
Proof.
  induction d as [|z d IH]; cbn.
  - apply andb_true_r.
  - now rewrite String.eqb_refl, IH.
Qed.

(** The child paths of a directory in the index are the children the entry
    stream presents, in the order of their first appearance. *)
Lemma child_paths_of_stream (es : list RawEntry) (d : list string) :
  child_paths (build_index es) d
  = map (fun x => (d ++ [x])%list) (stream_children d es).
Proof.
  unfold child_paths, stream_children, build_index.
  change (map entry_path ?i) with (paths i).
  rewrite (first_appearances_filter path_eqb path_eqb_eq).
  rewrite (fa_build es [] closed_nil). cbn [paths map].
  change (fold_left note ?l (first_appearances path_eqb [])) with (FA l).
  rewrite <- (first_appearances_filter path_eqb path_eqb_eq).
  rewrite filter_flat_map.
  rewrite (flat_map_ext _ (fun r => map (fun x => (d ++ [x])%list)
                                     (child_under d (normalize (raw_path r)))))
    by (intros r; apply children_among_touched).
  rewrite flat_map_map_inner.
  apply first_appearances_map. intros x y. apply path_eqb_snoc.
Qed.

(** *** Children as entries *)

Lemma lookup_path (idx : ArchiveIndex) (p : list string) (e : ArchiveEntry) :
  lookup idx p = Some e -> entry_path e = p /\ In e idx.
Proof.
  unfold lookup. intros H. apply find_some in H. destruct H as [Hin Hp].
  apply path_eqb_eq in Hp. auto.
Qed.

Lemma lookup_present (idx : ArchiveIndex) (p : list string) :
  In p (paths idx) -> exists e, lookup idx p = Some e.
Proof.
  unfold paths, lookup. intros H. apply in_map_iff in H.
  destruct H as (e & He & Hin).
  destruct (find (fun e0 => path_eqb (entry_path e0) p) idx) as [e'|] eqn:F.
  - now exists e'.
  - apply (find_none _ _ F) in Hin. rewrite He, path_eqb_refl in Hin.
    discriminate.
Qed.

Lemma child_paths_present (idx : ArchiveIndex) (d p : list string) :
  In p (child_paths idx d) -> In p (paths idx).
Proof.
  unfold child_paths. intros H.
  apply -> (in_first_appearances path_eqb path_eqb_eq) in H.
  apply filter_In in H. tauto.
Qed.

Lemma resolved_paths (idx : ArchiveIndex) (l : list (list string)) :
  (forall p, In p l -> In p (paths idx)) ->
  map entry_path
      (flat_map (fun p => match lookup idx p with Some e => [e] | None => [] end) l)
  = l.
Proof.
  induction l as [|p l IH]; intros H; cbn [flat_map]; [reflexivity|].
  rewrite map_app, IH by (intros q Hq; apply H; now right).
  destruct (lookup_present idx p (H p (or_introl eq_refl))) as (e & He).
  rewrite He. apply lookup_path in He. destruct He as [He _].
  cbn [map app]. now rewrite He.
Qed.

(** Each child path of a directory resolves to one entry. *)
Lemma children_of_paths (idx : ArchiveIndex) (d : list string) :
  map entry_path (children_of idx d) = child_paths idx d.
Proof.
  unfold children_of. apply resolved_paths. apply child_paths_present.
Qed.

(** ** The serializer *)

Section SerializerFacts.
Context {Node : Type}.
Variable describe : Node -> ResolvedNode.
Variable list_children : Node -> list Node.

Lemma serialize_name (depth : nat) (n : Node) :
  ti_name (serialize describe list_children depth n) = node_name (describe n).
Proof. destruct depth; reflexivity. Qed.

Lemma serialize_type (depth : nat) (n : Node) :
  ti_type (serialize describe list_children depth n) = node_kind (describe n).
Proof. destruct depth; reflexivity. Qed.

Lemma serialize_size (depth : nat) (n : Node) :
  ti_size (serialize describe list_children depth n) = node_size (describe n).
Proof. destruct depth; reflexivity. Qed.

Lemma serialize_perm (depth : nat) (n : Node) :
  ti_perm (serialize describe list_children depth n) = node_mode (describe n).
Proof. destruct depth; reflexivity. Qed.

Lemma serialize_directory (depth : nat) (n : Node) :
  node_kind (describe n) = Directory ->
  ti_contents (serialize describe list_children (S depth) n)
  = Some (map (serialize describe list_children depth) (list_children n)).
Proof. intros H. cbn. now rewrite H. Qed.

Lemma serialize_file (depth : nat) (n : Node) :
  node_kind (describe n) = File ->
  ti_contents (serialize describe list_children depth n) = None.
Proof. intros H. destruct depth; cbn; [reflexivity|now rewrite H]. Qed.
End SerializerFacts.

Lemma member_names (v : ArchiveView) (depth : nat) (l : list ArchiveEntry) :
  map ti_name
      (map (serialize (describe_archive v) (archive_children v) depth)
           (map ArchiveMember l))
  = map (fun p => last p EmptyString) (map entry_path l).
Proof.
  rewrite !map_map. apply map_ext. intros e. now rewrite serialize_name.
Qed.

Lemma names_of_children (d : list string) (l : list string) :
  map (fun p => last p EmptyString) (map (fun x => (d ++ [x])%list) l) = l.
Proof.
  rewrite map_map. rewrite <- (map_id l) at 2. apply map_ext.
  intros x. apply last_last.
Qed.

(** The names under which the children of the directory at [d] are
    serialized are the children the entry stream presents. *)
Lemma serialized_children_names (v : ArchiveView) (es : list RawEntry)
    (depth : nat) (d : list string) :
  view_index v = build_index es ->
  map ti_name
      (map (serialize (describe_archive v) (archive_children v) depth)
           (map ArchiveMember (children_of (view_index v) d)))
  = stream_children d es.
Proof.
  intros ->. rewrite member_names, children_of_paths, child_paths_of_stream.
  apply names_of_children.
Qed.

(** ** The pipeline on an archive-backed bundle *)

Lemma beam_is_remote (url : string) (lbp : LinkedBundlePath) :
  parse_linked_bundle_url url = Return lbp ->
  uses_beam lbp = true -> storage_type lbp = AZURE_BLOB_STORAGE.
Proof.
  intros H Hz. destruct (parse_return_inv url lbp H) as [(_ & ->)|(_ & R)].
  - discriminate Hz.
  - destruct R as (a & b & c & d & tail & _ & _ & _ & _ & _ & _ & _ & ->).
    reflexivity.
Qed.

Lemma archive_backed_uses_beam (lbp : LinkedBundlePath) :
  archive_backed lbp = true -> uses_beam lbp = true.
Proof. unfold archive_backed. intros H. now apply andb_true_iff in H. Qed.

(** A [.zip] object name makes a remote bundle archive-backed, and so does
    a [.tar.gz] one. *)
Lemma zip_is_archive_backed (url : string) (lbp : LinkedBundlePath) :
  parse_linked_bundle_url url = Return lbp ->
  is_zip lbp = true -> archive_backed lbp = true.
Proof.
  intros H Hz. unfold archive_backed. rewrite Hz.
  destruct (parse_return_inv url lbp H) as [(_ & ->)|(_ & R)].
  - discriminate Hz.
  - destruct R as (a & b & c & d & tail & _ & _ & _ & _ & _ & _ & _ & ->).
    reflexivity.
Qed.


Lemma get_target_info_archive (st : Storage) (url : string)
    (target : BundleTarget) (depth : nat) (lbp : LinkedBundlePath)
    (stream : RemoteStream) (es : list RawEntry) :
  parse_linked_bundle_url url = Return lbp ->
  archive_backed lbp = true ->
  remote_open st (bundle_path lbp) = Some stream ->
  stream_decode stream = Entries es ->
  get_target_info st url target depth
  = match resolve_archive (archive_view lbp target stream es)
            (relative_subpath target) with
    | None => inl NotFound
    | Some n =>
        inr (serialize (describe_archive (archive_view lbp target stream es))
                       (archive_children (archive_view lbp target stream es))
                       depth n)
    end.
Proof.
  intros Hp Hz Ho Hd. unfold get_target_info.
  rewrite Hp, (beam_is_remote url lbp Hp (archive_backed_uses_beam lbp Hz)),
    Ho, Hz, Hd.
  reflexivity.
Qed.

(** The root of a remote bundle, archive-backed or a single object. *)
Lemma get_target_info_remote_root (st : Storage) (url : string)
    (target : BundleTarget) (depth : nat) (lbp : LinkedBundlePath)
    (stream : RemoteStream) :
  parse_linked_bundle_url url = Return lbp ->
  uses_beam lbp = true ->
  remote_open st (bundle_path lbp) = Some stream ->
  (archive_backed lbp = true -> exists es, stream_decode stream = Entries es) ->
  normalize (relative_subpath target) = [] ->
  exists ti,
    get_target_info st url target depth = inr ti
    /\ ti_name ti = bundle_id target
    /\ ti_size ti = stream_size stream
    /\ ti_perm ti = ROOT_MODE
    /\ ti_type ti = (if archive_backed lbp then Directory else File).
Proof.
  intros Hp Hb Ho Hd Hs.
  destruct (archive_backed lbp) eqn:Ha.
  - destruct (Hd eq_refl) as (es & He).
    rewrite (get_target_info_archive st url target depth lbp stream es
               Hp Ha Ho He).
    unfold resolve_archive. rewrite Hs. eexists. split; [reflexivity|].
    rewrite serialize_name, serialize_size, serialize_perm, serialize_type.
    cbn. auto.
  - unfold get_target_info.
    rewrite Hp, (beam_is_remote url lbp Hp Hb), Ho, Ha, Hs.
    eexists. split; [reflexivity|]. cbn. auto.
Qed.

(** *** Every directory of the output tree *)

Lemma child_entry_path (es : list RawEntry) (d : list string) (e : ArchiveEntry) :
  In e (children_of (build_index es) d) ->
  entry_path e = (d ++ [last (entry_path e) EmptyString])%list.
Proof.
  intros H. apply (in_map entry_path) in H.
  rewrite children_of_paths, child_paths_of_stream in H.
  apply in_map_iff in H. destruct H as (x & <- & _).
  now rewrite last_last.
Qed.


Lemma archive_children_members (v : ArchiveView) (n : ArchiveNode) :
  node_kind (describe_archive v n) = Directory ->
  archive_children v n
  = map ArchiveMember (children_of (view_index v) (node_path n)).
Proof.
  destruct n as [|e]; cbn; [reflexivity|]. now intros ->.
Qed.

(** Serializing a node of an archive with any depth gives a tree in which
    every directory lists its children in the order of the entry stream. *)
Lemma serialize_listed_in_stream_order (v : ArchiveView) (es : list RawEntry) :
  view_index v = build_index es ->
  forall depth n,
    listed_in_stream_order es depth (node_path n)
      (serialize (describe_archive v) (archive_children v) depth n) = true.
Proof.
  intros Hv. induction depth as [|k IH]; intros n; [reflexivity|].
  cbn [listed_in_stream_order]. rewrite serialize_type.
  destruct (node_kind (describe_archive v n)) eqn:K.
  - now rewrite serialize_file.
  - rewrite (serialize_directory _ _ k n K), (archive_children_members v n K).
    apply andb_true_iff. split.
    + apply path_eqb_eq. now apply serialized_children_names.
    + apply forallb_forall. intros c Hc.
      apply in_map_iff in Hc. destruct Hc as (m & <- & Hm).
      apply in_map_iff in Hm. destruct Hm as (e & <- & He).
      rewrite serialize_name. cbn [describe_archive node_name].
      rewrite Hv in He. rewrite <- (child_entry_path es _ e He).
      exact (IH (ArchiveMember e)).
Qed.

(** ** Properties of the target-info pipeline *)

Example nested_root_depth_0 :
  get_target_info nested_storage zip_locator whole_bundle 0
  = inr (mkTargetInfo "0.8444218515250481" Directory 246 511 None zip_locator).
Proof. reflexivity. Qed.

Example nested_root_depth_1 :
  get_target_info nested_storage zip_locator whole_bundle 1
  = inr (mkTargetInfo "0.8444218515250481" Directory 246 511
           (Some [ leaf "README.md" 11 (zip_locator ++ "/README.md");
                   mkTargetInfo "src" Directory 0 420 None
                                (zip_locator ++ "/src");
                   mkTargetInfo "dist" Directory 0 420 None
                                (zip_locator ++ "/dist") ])
           zip_locator).
Proof. reflexivity. Qed.

Example nested_src_depth_1 :
  get_target_info nested_storage zip_locator (inside "src") 1
  = inr (mkTargetInfo "src" Directory 0 420
           (Some [ leaf "test.sh" 7 (zip_locator ++ "/src/test.sh") ])
           (zip_locator ++ "/src")).
Proof. reflexivity. Qed.

Example nested_file_depth_1 :
  get_target_info nested_storage zip_locator (inside "dist/a/b/test2.sh") 1
  = inr (leaf "test2.sh" 8 (zip_locator ++ "/dist/a/b/test2.sh")).
Proof. reflexivity. Qed.

Example nested_all_depths :
  get_target_info nested_storage zip_locator (inside "dist/a") 999
  = inr (mkTargetInfo "a" Directory 0 420
           (Some [ mkTargetInfo "b" Directory 0 420
                     (Some [ leaf "test2.sh" 8
                               (zip_locator ++ "/dist/a/b/test2.sh") ])
                     (zip_locator ++ "/dist/a/b") ])
           (zip_locator ++ "/dist/a")).
Proof. vm_compute. reflexivity. Qed.

Example nested_missing :
  get_target_info nested_storage zip_locator (inside "dist/c") 1 = inl NotFound.
Proof. reflexivity. Qed.

(** [test_single_file]: a remote object that is not an archive. *)
Example single_file_depth_0 :
  get_target_info
    (single_object "azfs://storageclwsdev0/bundles/0.42/contents"
                   (mkRemoteStream 1 Unsupported))
    "azfs://storageclwsdev0/bundles/0.42/contents"
    (mkBundleTarget "0.42" EmptyString) 0
  = inr (mkTargetInfo "0.42" File 1 511 None
           "azfs://storageclwsdev0/bundles/0.42/contents").
Proof. reflexivity. Qed.

(** The same values at the locator the test itself writes, whose object
    name ends in [.tar.gz]. *)
Example nested_tar_gz_root_depth_0 :
  get_target_info nested_tar_gz_storage tar_gz_locator whole_bundle 0
  = inr (mkTargetInfo "0.8444218515250481" Directory 246 511 None
           tar_gz_locator).
Proof. reflexivity. Qed.

Example nested_tar_gz_root_depth_1 :
  get_target_info nested_tar_gz_storage tar_gz_locator whole_bundle 1
  = inr (mkTargetInfo "0.8444218515250481" Directory 246 511
           (Some [ leaf "README.md" 11 (tar_gz_locator ++ "/README.md");
                   mkTargetInfo "src" Directory 0 420 None
                                (tar_gz_locator ++ "/src");
                   mkTargetInfo "dist" Directory 0 420 None
                                (tar_gz_locator ++ "/dist") ])
           tar_gz_locator).
Proof. reflexivity. Qed.

Example nested_tar_gz_all_depths :
  get_target_info nested_tar_gz_storage tar_gz_locator (inside "dist/a") 999
  = inr (mkTargetInfo "a" Directory 0 420
           (Some [ mkTargetInfo "b" Directory 0 420
                     (Some [ leaf "test2.sh" 8
                               (tar_gz_locator ++ "/dist/a/b/test2.sh") ])
                     (tar_gz_locator ++ "/dist/a/b") ])
           (tar_gz_locator ++ "/dist/a")).
Proof. vm_compute. reflexivity. Qed.

(** An archive without explicit directory entries: directories are
    synthesized where their first child needs them. *)
Example synthesized_directories :
  map entry_path
      (build_index [ mkRawEntry "b/x/one" File 1 None;
                     mkRawEntry "a/two" File 2 None;
                     mkRawEntry "b/three" File 3 None ])
  = [ ["b"]; ["b"; "x"]; ["b"; "x"; "one"]; ["a"]; ["a"; "two"];
      ["b"; "three"] ].
Proof. reflexivity. Qed.

(** C1: on a remote bundle, and so on every archive-backed bundle, under a
    [.zip] or a [.tar.gz] object name alike, the empty subpath resolves to a
    target whose size is the byte length of the stored object, whatever
    entries the archive holds; for an archive-backed bundle that target is
    the directory of the whole bundle. *)
Theorem archive_root_size_is_object_length (st : Storage) (url : string)
    (target : BundleTarget) (depth : nat) (lbp : LinkedBundlePath)
    (stream : RemoteStream) :
  parse_linked_bundle_url url = Return lbp ->
  uses_beam lbp = true ->
  remote_open st (bundle_path lbp) = Some stream ->
  (archive_backed lbp = true -> exists es, stream_decode stream = Entries es) ->
  normalize (relative_subpath target) = [] ->
  exists ti,
    get_target_info st url target depth = inr ti
    /\ ti_size ti = stream_size stream
    /\ (archive_backed lbp = true -> ti_type ti = Directory).
Proof.
  intros Hp Hb Ho Hd Hs.
  destruct (get_target_info_remote_root st url target depth lbp stream
              Hp Hb Ho Hd Hs) as (ti & Hg & _ & Hz & _ & Ht).
  exists ti. repeat split; [exact Hg|exact Hz|].
  intros Ha. now rewrite Ha in Ht.
Qed.

Lemma archive_root_size_is_object_length_witness :
  exists ti,
    get_target_info nested_tar_gz_storage tar_gz_locator whole_bundle 1 = inr ti
    /\ ti_size ti = 246%N
    /\ (true = true -> ti_type ti = Directory).
Proof.
  apply (archive_root_size_is_object_length nested_tar_gz_storage
           tar_gz_locator whole_bundle 1
           (mkLinkedBundlePath AZURE_BLOB_STORAGE tar_gz_locator false true
              None (Some "0.8444218515250481"))
           (mkRemoteStream 246 (Entries nested_archive))).
  - reflexivity.
  - reflexivity.
  - reflexivity.
  - intros _. exists nested_archive. reflexivity.
  - reflexivity.
Defined.

(** C6: on a remote bundle, and so on every archive-backed bundle, under a
    [.zip] or a [.tar.gz] object name alike, the empty subpath resolves to a
    target whose permission bits are 511 (0o777), whatever modes the
    archive records. *)
Theorem archive_root_perm_is_full_access (st : Storage) (url : string)
    (target : BundleTarget) (depth : nat) (lbp : LinkedBundlePath)
    (stream : RemoteStream) :
  parse_linked_bundle_url url = Return lbp ->
  uses_beam lbp = true ->
  remote_open st (bundle_path lbp) = Some stream ->
  (archive_backed lbp = true -> exists es, stream_decode stream = Entries es) ->
  normalize (relative_subpath target) = [] ->
  exists ti,
    get_target_info st url target depth = inr ti
    /\ ti_perm ti = 511%N.
Proof.
  intros Hp Hb Ho Hd Hs.
  destruct (get_target_info_remote_root st url target depth lbp stream
              Hp Hb Ho Hd Hs) as (ti & Hg & _ & _ & Hm & _).
  exists ti. split; [exact Hg|exact Hm].
Qed.

Lemma archive_root_perm_is_full_access_witness :
  exists ti,
    get_target_info nested_tar_gz_storage tar_gz_locator whole_bundle 0 = inr ti
    /\ ti_perm ti = 511%N.
Proof.
  apply (archive_root_perm_is_full_access nested_tar_gz_storage
           tar_gz_locator whole_bundle 0
           (mkLinkedBundlePath AZURE_BLOB_STORAGE tar_gz_locator false true
              None (Some "0.8444218515250481"))
           (mkRemoteStream 246 (Entries nested_archive))).
  - reflexivity.
  - reflexivity.
  - reflexivity.
  - intros _. exists nested_archive. reflexivity.
  - reflexivity.
Defined.

(** At depth 0 the serializer gives the metadata of the node and nothing
    else, for any node type and any way of listing children. *)
Lemma serialize_depth_zero {Node : Type} (describe : Node -> ResolvedNode)
    (list_children : Node -> list Node) (n : Node) :
  serialize describe list_children 0 n
  = mkTargetInfo (node_name (describe n)) (node_kind (describe n))
                 (node_size (describe n)) (node_mode (describe n))
                 None (node_locator (describe n)).
Proof. reflexivity. Qed.

(** The same through the whole pipeline, for every kind of storage. *)
Lemma get_target_info_depth_zero (st : Storage) (url : string)
    (target : BundleTarget) (ti : TargetInfo) :
  get_target_info st url target 0 = inr ti -> ti_contents ti = None.
Proof.
  unfold get_target_info. intros H.
  repeat match type of H with
         | context [match ?x with _ => _ end] => destruct x; try discriminate
         end;
    injection H as <-; reflexivity.
Qed.

(** C4: serializing any node at depth 0, file or directory and whatever
    its children, gives its metadata and no contents; so every target info
    the pipeline returns at depth 0, on local, remote or archive-backed
    storage, has no contents. *)
Theorem depth_zero_has_no_contents :
  (forall (Node : Type) (describe : Node -> ResolvedNode)
          (list_children : Node -> list Node) (n : Node),
      ti_contents (serialize describe list_children 0 n) = None
      /\ ti_type (serialize describe list_children 0 n) = node_kind (describe n)
      /\ ti_size (serialize describe list_children 0 n) = node_size (describe n)
      /\ ti_perm (serialize describe list_children 0 n) = node_mode (describe n))
  /\ (forall (st : Storage) (url : string) (target : BundleTarget)
             (ti : TargetInfo),
         get_target_info st url target 0 = inr ti -> ti_contents ti = None).
Proof.
  split.
  - intros Node describe list_children n.
    rewrite serialize_depth_zero. cbn. auto.
  - exact get_target_info_depth_zero.
Qed.

Lemma depth_zero_has_no_contents_witness :
  ti_contents
    (mkTargetInfo "0.8444218515250481" Directory 246 511 None zip_locator)
  = None.
Proof.
  apply (proj2 depth_zero_has_no_contents nested_storage zip_locator
           whole_bundle).
  reflexivity.
Defined.

Lemma inr_inj {A B : Type} (x y : B) : @inr A B x = inr y -> x = y.
Proof. congruence. Qed.

(** C5: in the tree returned for an archive-backed bundle, every
    directory that is expanded, the resolved one and every directory below
    it down to the depth asked for, lists its children by name in the order
    in which the entry stream first presents them; in particular the
    [contents] of a resolved directory are its children in that order. *)
Theorem children_in_stream_order (st : Storage) (url : string)
    (target : BundleTarget) (depth : nat) (lbp : LinkedBundlePath)
    (stream : RemoteStream) (es : list RawEntry) (ti : TargetInfo) :
  parse_linked_bundle_url url = Return lbp ->
  archive_backed lbp = true ->
  remote_open st (bundle_path lbp) = Some stream ->
  stream_decode stream = Entries es ->
  get_target_info st url target depth = inr ti ->
  listed_in_stream_order es depth (normalize (relative_subpath target)) ti
  = true
  /\ (depth <> 0 -> ti_type ti = Directory ->
      exists contents,
        ti_contents ti = Some contents
        /\ map ti_name contents
           = stream_children (normalize (relative_subpath target)) es).
Proof.
  intros Hp Hz Ho Hd Hg.
  rewrite (get_target_info_archive st url target depth lbp stream es
             Hp Hz Ho Hd) in Hg.
  set (v := archive_view lbp target stream es) in *.
  assert (Hn : exists n,
             node_path n = normalize (relative_subpath target)
             /\ ti = serialize (describe_archive v) (archive_children v) depth n).
  { unfold resolve_archive in Hg.
    destruct (normalize (relative_subpath target)) as [|x p] eqn:Hn.
    - apply inr_inj in Hg. exists ArchiveRoot. auto.
    - destruct (lookup (view_index v) (x :: p)) as [e|] eqn:Hl;
        cbn [option_map] in Hg; [|discriminate].
      apply inr_inj in Hg. destruct (lookup_path _ _ _ Hl) as [He _].
      exists (ArchiveMember e). auto. }
  destruct Hn as (n & Hpath & ->). rewrite <- Hpath. split.
  - now apply serialize_listed_in_stream_order.
  - intros Hdepth Ht. destruct depth as [|k]; [congruence|].
    rewrite serialize_type in Ht.
    eexists. split; [now apply serialize_directory|].
    rewrite (archive_children_members v n Ht).
    now apply serialized_children_names.
Qed.

Lemma children_in_stream_order_witness :
  listed_in_stream_order nested_archive 2 []
    (mkTargetInfo "0.8444218515250481" Directory 246 511
       (Some [ leaf "README.md" 11 (tar_gz_locator ++ "/README.md");
               mkTargetInfo "src" Directory 0 420
                 (Some [ leaf "test.sh" 7 (tar_gz_locator ++ "/src/test.sh") ])
                 (tar_gz_locator ++ "/src");
               mkTargetInfo "dist" Directory 0 420
                 (Some [ mkTargetInfo "a" Directory 0 420 None
                           (tar_gz_locator ++ "/dist/a") ])
                 (tar_gz_locator ++ "/dist") ])
       tar_gz_locator)
  = true
  /\ (2 <> 0 -> Directory = Directory ->
      exists contents,
        Some [ leaf "README.md" 11 (tar_gz_locator ++ "/README.md");
               mkTargetInfo "src" Directory 0 420
                 (Some [ leaf "test.sh" 7 (tar_gz_locator ++ "/src/test.sh") ])
                 (tar_gz_locator ++ "/src");
               mkTargetInfo "dist" Directory 0 420
                 (Some [ mkTargetInfo "a" Directory 0 420 None
                           (tar_gz_locator ++ "/dist/a") ])
                 (tar_gz_locator ++ "/dist") ]
        = Some contents
        /\ map ti_name contents = ["README.md"; "src"; "dist"]).
Proof.
  exact (children_in_stream_order nested_tar_gz_storage tar_gz_locator
           whole_bundle 2
           (mkLinkedBundlePath AZURE_BLOB_STORAGE tar_gz_locator false true
              None (Some "0.8444218515250481"))
           (mkRemoteStream 246 (Entries nested_archive)) nested_archive _
           eq_refl eq_refl eq_refl eq_refl eq_refl).
Defined.

(** A tree whose nested listing is out of order is told apart. *)
Example reversed_nested_listing_is_rejected :
  listed_in_stream_order
    [ mkRawEntry "d/x" File 1 None; mkRawEntry "d/y" File 1 None ] 2 []
    (mkTargetInfo "root" Directory 9 511
       (Some [ mkTargetInfo "d" Directory 0 420
                 (Some [ mkTargetInfo "y" File 1 420 None "l/d/y";
                         mkTargetInfo "x" File 1 420 None "l/d/x" ])
                 "l/d" ])
       "l")
  = false.
Proof. reflexivity. Qed.

(** The order is the stream's, not the alphabet's: [a] is written last. *)
Example children_are_not_sorted :
  stream_children [] [ mkRawEntry "c/1" File 1 None;
                       mkRawEntry "b" Directory 0 None;
                       mkRawEntry "a" File 1 None;
                       mkRawEntry "c/2" File 1 None ]
  = ["c"; "b"; "a"].
Proof. reflexivity. Qed.

(** * Further properties of [codalab/common.py] *)

(** ** The class hierarchy *)

(** Every error class the module declares derives from [ValueError]: a
    handler for [ValueError] catches all of them. *)
Theorem module_errors_are_value_errors (c : exn_class) :
  declared_in_module c = true -> issubclass c ValueError = true.
Proof. destruct c; cbn; congruence. Qed.

Lemma module_errors_are_value_errors_witness :
  issubclass NotFoundError ValueError = true.
Proof. apply (module_errors_are_value_errors NotFoundError). reflexivity. Defined.

(** ** HTTP error translation *)

(** An exception is reported with a 4xx code exactly when it is a
    [UsageError]; every other exception is reported as 500. *)
Theorem http_code_separates_usage_errors (e : exception) :
  (isinstance e UsageError = true
   /\ (400 <= fst (exception_to_http_error e) < 500)%Z)
  \/ (isinstance e UsageError = false
      /\ fst (exception_to_http_error e) = Http.INTERNAL_SERVER_ERROR).
Proof.
  destruct e as [c m].
  destruct c;
    first [ right; split; reflexivity
          | left; split; [reflexivity | vm_compute; split; congruence] ].
Qed.

(** The exception rebuilt from a code carries the message, is a
    [UsageError] exactly when the code is a 4xx code, and is a plain
    [Exception] exactly when it is not. *)
Theorem rebuilt_exception_is_usage_error_iff_4xx (code : Z) (message : string) :
  exn_str (http_error_to_exception code message) = message
  /\ (isinstance (http_error_to_exception code message) UsageError = true
      <-> (400 <= code < 500)%Z)
  /\ (http_error_to_exception code message = mkException Exception message
      <-> ~ (400 <= code < 500)%Z).
Proof.
  unfold http_error_to_exception. cbn [http_codes_and_exceptions find fst snd].
  unfold Http.FORBIDDEN, Http.UNAUTHORIZED, Http.NOT_FOUND, Http.BAD_REQUEST.
  destruct (Z.eqb_spec code 403) as [->|N1];
    [cbn; repeat split; try lia; try reflexivity; try discriminate|].
  destruct (Z.eqb_spec code 401) as [->|N2];
    [cbn; repeat split; try lia; try reflexivity; try discriminate|].
  destruct (Z.eqb_spec code 404) as [->|N3];
    [cbn; repeat split; try lia; try reflexivity; try discriminate|].
  destruct (Z.eqb_spec code 400) as [->|N4];
    [cbn; repeat split; try lia; try reflexivity; try discriminate|].
  destruct (Z.leb_spec 400 code); destruct (Z.ltb_spec code 500); cbn;
    repeat split; try lia; try reflexivity; try discriminate.
Qed.

Theorem http_code_round_trip (code : Z) (message : string) :
  exception_to_http_error (http_error_to_exception code message)
  = (normalized_code code, message).
Proof.
  unfold http_error_to_exception, normalized_code.
  cbn [http_codes_and_exceptions find fst snd map existsb].
  unfold Http.FORBIDDEN, Http.UNAUTHORIZED, Http.NOT_FOUND, Http.BAD_REQUEST.
  destruct (Z.eqb_spec code 403) as [->|N1]; [reflexivity|].
  destruct (Z.eqb_spec code 401) as [->|N2]; [reflexivity|].
  destruct (Z.eqb_spec code 404) as [->|N3]; [reflexivity|].
  destruct (Z.eqb_spec code 400) as [->|N4]; [reflexivity|].
  cbn [orb].
  destruct ((400 <=? code)%Z && (code <? 500)%Z); reflexivity.
Qed.

(** The four codes of the table survive the trip unchanged. *)
Theorem table_codes_round_trip (code : Z) (message : string) :
  In code (map fst http_codes_and_exceptions) ->
  exception_to_http_error (http_error_to_exception code message)
  = (code, message).
Proof.
  cbn. intros [<-|[<-|[<-|[<-|[]]]]]; reflexivity.
Qed.

Lemma table_codes_round_trip_witness :
  exception_to_http_error (http_error_to_exception 404 "no such bundle")
  = (404%Z, "no such bundle").
Proof.
  apply (table_codes_round_trip 404 "no such bundle"). cbn. tauto.
Defined.

(** A 4xx code outside the table comes back as 400. *)
Theorem unlisted_4xx_becomes_bad_request (code : Z) (message : string) :
  (400 <= code < 500)%Z ->
  ~ In code (map fst http_codes_and_exceptions) ->
  exception_to_http_error (http_error_to_exception code message)
  = (Http.BAD_REQUEST, message).
Proof.
  intros Hr Hn. rewrite http_code_round_trip. f_equal.
  unfold normalized_code.
  destruct (existsb (Z.eqb code) (map fst http_codes_and_exceptions)) eqn:E.
  - apply existsb_exists in E. destruct E as (k & Hk & Ek).
    apply Z.eqb_eq in Ek. subst k. contradiction.
  - destruct (Z.leb_spec 400 code); destruct (Z.ltb_spec code 500);
      try lia; reflexivity.
Qed.

Lemma unlisted_4xx_becomes_bad_request_witness :
  exception_to_http_error (http_error_to_exception 409 "conflict")
  = (400%Z, "conflict").
Proof.
  apply (unlisted_4xx_becomes_bad_request 409 "conflict").
  - lia.
  - cbn. intros [H|[H|[H|[H|[]]]]]; discriminate H.
Defined.

(** A code that is not a 4xx code becomes a plain [Exception] and comes
    back as 500. *)
Theorem other_codes_become_internal_error (code : Z) (message : string) :
  (code < 400 \/ 500 <= code)%Z ->
  http_error_to_exception code message = mkException Exception message
  /\ exception_to_http_error (http_error_to_exception code message)
     = (Http.INTERNAL_SERVER_ERROR, message).
Proof.
  intros Hr. split.
  { unfold http_error_to_exception.
    cbn [http_codes_and_exceptions find fst snd].
    unfold Http.FORBIDDEN, Http.UNAUTHORIZED, Http.NOT_FOUND, Http.BAD_REQUEST.
    destruct (Z.eqb_spec code 403); [lia|].
    destruct (Z.eqb_spec code 401); [lia|].
    destruct (Z.eqb_spec code 404); [lia|].
    destruct (Z.eqb_spec code 400); [lia|].
    destruct (Z.leb_spec 400 code); destruct (Z.ltb_spec code 500);
      try lia; reflexivity. }
  rewrite http_code_round_trip. f_equal.
  unfold normalized_code.
  cbn [http_codes_and_exceptions fst map existsb].
  unfold Http.FORBIDDEN, Http.UNAUTHORIZED, Http.NOT_FOUND, Http.BAD_REQUEST.
  destruct (Z.eqb_spec code 403); [lia|].
  destruct (Z.eqb_spec code 401); [lia|].
  destruct (Z.eqb_spec code 404); [lia|].
  destruct (Z.eqb_spec code 400); [lia|].
  cbn [orb].
  destruct (Z.leb_spec 400 code); destruct (Z.ltb_spec code 500);
    try lia; reflexivity.
Qed.

Lemma other_codes_become_internal_error_witness :
  http_error_to_exception 302 "moved" = mkException Exception "moved"
  /\ exception_to_http_error (http_error_to_exception 302 "moved")
     = (500%Z, "moved").
Proof.
  apply (other_codes_become_internal_error 302 "moved"). lia.
Defined.

(** ** Preconditions *)

(** A failed precondition raises [PreconditionViolation] with the given
    message, which is not a [UsageError] and is therefore reported to an
    HTTP client as 500 with that message. *)
Theorem failed_precondition_is_internal_error (condition : bool)
    (message : string) (e : exception) :
  precondition condition message = Raise e ->
  condition = false
  /\ e = mkException PreconditionViolation message
  /\ isinstance e UsageError = false
  /\ exception_to_http_error e = (Http.INTERNAL_SERVER_ERROR, message).
Proof.
  unfold precondition. destruct condition; cbn; [discriminate|].
  intros [= <-]. repeat split.
Qed.

Lemma failed_precondition_is_internal_error_witness :
  false = false
  /\ mkException PreconditionViolation "uuid must be a string"
     = mkException PreconditionViolation "uuid must be a string"
  /\ isinstance (mkException PreconditionViolation "uuid must be a string")
                UsageError = false
  /\ exception_to_http_error
       (mkException PreconditionViolation "uuid must be a string")
     = (Http.INTERNAL_SERVER_ERROR, "uuid must be a string").
Proof.
  apply (failed_precondition_is_internal_error false "uuid must be a string").
  reflexivity.
Defined.

(** ** Linked bundle URLs *)

Lemma string_length_app (a b : string) :
  String.length (a ++ b) = String.length a + String.length b.
Proof. induction a; simpl; congruence. Qed.

(** [s.endswith(suf)] holds exactly when [s] is some text followed by
    [suf]. *)
Lemma endswith_spec (s suf : string) :
  Py.endswith s suf = true <-> exists q, s = q ++ suf.
Proof.
  unfold Py.endswith. rewrite andb_true_iff, Nat.leb_le, String.eqb_eq. split.
  - intros [Hl Hd].
    assert (G : forall n t, n <= String.length t ->
              exists q, t = q ++ Py.drop n t).
    { clear. induction n as [|n IH]; intros t Hn.
      - exists EmptyString. reflexivity.
      - destruct t as [|c t]; simpl in Hn; [lia|].
        destruct (IH t) as (q & Hq); [lia|].
        exists (String c q). simpl. now rewrite <- Hq. }
    destruct (G (String.length s - String.length suf) s) as (q & Hq); [lia|].
    exists q. now rewrite <- Hd.
  - intros (q & ->). rewrite string_length_app. split; [lia|].
    replace (String.length q + String.length suf - String.length suf)
      with (String.length q) by lia.
    apply drop_app.
Qed.

(** A suffix that does not contain the separator is looked for after the
    last separator only. *)
Lemma endswith_after_separator (c : ascii) (x d suf : string) :
  Py.count c suf = 0 ->
  Py.endswith (x ++ String c d) suf = Py.endswith d suf.
Proof.
  intros Hc. apply eq_true_iff_eq. rewrite !endswith_spec. split.
  - intros (q & Hq). revert x Hq.
    induction q as [|y q IH]; intros x Hq.
    + exfalso. simpl in Hq. rewrite <- Hq, count_app in Hc. simpl in Hc.
      rewrite Ascii.eqb_refl in Hc. lia.
    + destruct x as [|y' x]; simpl in Hq.
      * injection Hq as _ Hq. now exists q.
      * injection Hq as _ Hq. now apply (IH x).
  - intros (q & ->). exists (x ++ String c q).
    rewrite append_assoc. reflexivity.
Qed.

Lemma local_parse (url : string) :
  Py.startswith url "azfs://" = false ->
  parse_linked_bundle_url url
  = Return (mkLinkedBundlePath FILE_STORAGE url false false None None).
Proof. intros Hp. unfold parse_linked_bundle_url. now rewrite Hp. Qed.

Lemma remote_url_split (a b c d : string) (tail : option string) :
  "azfs://" ++ remote_text a b c d tail
  = ("azfs://" ++ a ++ "/" ++ b ++ "/" ++ c ++ "/" ++ d)
      ++ match tail with Some r => "/" ++ r | None => EmptyString end.
Proof. unfold remote_text. now rewrite !append_assoc. Qed.

(** Parsing fails exactly on the locators that carry the remote scheme and
    fewer than four segments; every other string is parsed. *)
Theorem parse_raises_iff_short_remote (url : string) :
  (exists e, parse_linked_bundle_url url = Raise e)
  <-> Py.startswith url "azfs://" = true
      /\ Py.count slash (Py.drop 7 url) < 3.
Proof.
  split.
  - intros (e & He).
    destruct (Py.startswith url "azfs://") eqn:Hp.
    + split; [reflexivity|].
      destruct (Nat.lt_ge_cases (Py.count slash (Py.drop 7 url)) 3) as [H|H];
        [exact H|].
      destruct (remote_locator_decompose url Hp H)
        as (a & b & c & d & tail & E & Ha & Hb & Hc & Hd & _).
      rewrite E, (parse_remote_text a b c d tail Ha Hb Hc Hd) in He.
      discriminate.
    + rewrite (local_parse url Hp) in He. discriminate.
  - intros [Hp Hs]. eexists. now apply parse_remote_short.
Qed.

(** The fields of a descriptor agree with each other: [uses_beam] says
    whether the locator has the remote scheme, the storage type is Azure
    and a bundle uuid is present exactly then, and only remote objects are
    ever zip archives. *)
Theorem descriptor_fields_agree (url : string) (lbp : LinkedBundlePath) :
  parse_linked_bundle_url url = Return lbp ->
  uses_beam lbp = Py.startswith url "azfs://"
  /\ (storage_type lbp = AZURE_BLOB_STORAGE <-> uses_beam lbp = true)
  /\ (bundle_uuid lbp = None <-> uses_beam lbp = false)
  /\ (is_zip lbp = true -> uses_beam lbp = true)
  /\ (zip_subpath lbp <> None -> is_zip lbp = true).
Proof.
  intros H.
  destruct (parse_return_inv url lbp H)
    as [(Hp & ->) | (Hp & a & b & c & d & tail & _ & _ & _ & _ & _ & _ & _ & ->)];
    rewrite Hp; cbn [uses_beam storage_type bundle_uuid is_zip zip_subpath].
  - repeat split; try congruence; try discriminate.
  - repeat split; try congruence; try discriminate.
    destruct (Py.endswith d ".zip"); congruence.
Qed.

Lemma descriptor_fields_agree_witness :
  true = Py.startswith "azfs://acct/bundles/0x1/contents.zip/a.txt" "azfs://"
  /\ (AZURE_BLOB_STORAGE = AZURE_BLOB_STORAGE <-> true = true)
  /\ (Some "0x1" = None <-> true = false)
  /\ (true = true -> true = true)
  /\ (Some "a.txt" <> None -> true = true).
Proof.
  exact (descriptor_fields_agree "azfs://acct/bundles/0x1/contents.zip/a.txt"
           (mkLinkedBundlePath AZURE_BLOB_STORAGE
              "azfs://acct/bundles/0x1/contents.zip" true true (Some "a.txt")
              (Some "0x1"))
           eq_refl).
Defined.

(** The bundle path is always an initial part of the locator it was parsed
    from. *)
Theorem bundle_path_is_prefix_of_url (url : string) (lbp : LinkedBundlePath) :
  parse_linked_bundle_url url = Return lbp ->
  Py.startswith url (bundle_path lbp) = true.
Proof.
  intros H.
  destruct (parse_return_inv url lbp H)
    as [(Hp & ->) | (Hp & a & b & c & d & tail & E & _ & _ & _ & _ & _ & _ & ->)];
    cbn [bundle_path].
  - rewrite <- (append_empty_r url) at 1. apply startswith_app.
  - rewrite E, remote_url_split. apply startswith_app.
Qed.

Lemma bundle_path_is_prefix_of_url_witness :
  Py.startswith "azfs://acct/bundles/0x1/contents/a/b.txt"
                "azfs://acct/bundles/0x1/contents" = true.
Proof.
  exact (bundle_path_is_prefix_of_url "azfs://acct/bundles/0x1/contents/a/b.txt"
           (mkLinkedBundlePath AZURE_BLOB_STORAGE
              "azfs://acct/bundles/0x1/contents" false true None (Some "0x1"))
           eq_refl).
Defined.

(** For a zip archive nothing of the locator is lost: it is the bundle
    path, followed by a slash and the zip subpath when there is one.  The
    subpath keeps every further slash. *)
Theorem zip_locator_round_trip (url : string) (lbp : LinkedBundlePath) :
  parse_linked_bundle_url url = Return lbp ->
  is_zip lbp = true ->
  url = bundle_path lbp
        ++ match zip_subpath lbp with
           | Some sub => "/" ++ sub
           | None => EmptyString
           end.
Proof.
  intros H Hz.
  destruct (parse_return_inv url lbp H)
    as [(Hp & ->) | (Hp & a & b & c & d & tail & E & _ & _ & _ & _ & _ & _ & ->)];
    cbn [bundle_path is_zip zip_subpath] in *; [discriminate|].
  rewrite Hz. rewrite E at 1. apply remote_url_split.
Qed.

Lemma zip_locator_round_trip_witness :
  "azfs://acct/bundles/0x1/contents.zip/src/lib/a.py"
  = "azfs://acct/bundles/0x1/contents.zip" ++ "/" ++ "src/lib/a.py".
Proof.
  exact (zip_locator_round_trip
           "azfs://acct/bundles/0x1/contents.zip/src/lib/a.py"
           (mkLinkedBundlePath AZURE_BLOB_STORAGE
              "azfs://acct/bundles/0x1/contents.zip" true true
              (Some "src/lib/a.py") (Some "0x1"))
           eq_refl eq_refl).
Defined.

(** Parsing the bundle path of a descriptor gives the same descriptor
    without a zip subpath: the bundle path is itself a locator, of the
    bundle as a whole. *)
Theorem bundle_path_parses_to_whole_bundle (url : string) (lbp : LinkedBundlePath) :
  parse_linked_bundle_url url = Return lbp ->
  parse_linked_bundle_url (bundle_path lbp)
  = Return (mkLinkedBundlePath (storage_type lbp) (bundle_path lbp)
              (is_zip lbp) (uses_beam lbp) None (bundle_uuid lbp)).
Proof.
  intros H.
  destruct (parse_return_inv url lbp H)
    as [(Hp & ->) | (Hp & a & b & c & d & tail & _ & Ha & Hb & Hc & Hd & _ & _ & ->)];
    cbn [bundle_path storage_type is_zip uses_beam bundle_uuid].
  - now apply local_parse.
  - pose proof (parse_remote_text a b c d None Ha Hb Hc Hd) as P.
    rewrite remote_url_split, append_empty_r in P. rewrite P.
    now destruct (Py.endswith d ".zip").
Qed.

Lemma bundle_path_parses_to_whole_bundle_witness :
  parse_linked_bundle_url "azfs://acct/bundles/0x1/contents.zip"
  = Return (mkLinkedBundlePath AZURE_BLOB_STORAGE
              "azfs://acct/bundles/0x1/contents.zip" true true None
              (Some "0x1")).
Proof.
  exact (bundle_path_parses_to_whole_bundle
           "azfs://acct/bundles/0x1/contents.zip/src/lib/a.py"
           (mkLinkedBundlePath AZURE_BLOB_STORAGE
              "azfs://acct/bundles/0x1/contents.zip" true true
              (Some "src/lib/a.py") (Some "0x1"))
           eq_refl).
Defined.

(** The bundle path of a remote descriptor has exactly four segments after
    the scheme, and the bundle uuid, the third of them, contains no
    slash. *)
Theorem remote_bundle_path_has_four_segments (url : string)
    (lbp : LinkedBundlePath) :
  parse_linked_bundle_url url = Return lbp ->
  uses_beam lbp = true ->
  Py.count slash (Py.drop 7 (bundle_path lbp)) = 3
  /\ exists uuid, bundle_uuid lbp = Some uuid /\ Py.count slash uuid = 0.
Proof.
  intros H Hb.
  destruct (parse_return_inv url lbp H)
    as [(Hp & ->) | (Hp & a & b & c & d & tail & _ & Ha & Hb' & Hc & Hd & _ & _ & ->)];
    cbn [bundle_path uses_beam bundle_uuid] in *; [discriminate|].
  split; [|exists c; auto].
  rewrite (drop_app "azfs://"). rewrite !count_app. cbn [Py.count].
  rewrite Ha, Hb', Hc, Hd. reflexivity.
Qed.

Lemma remote_bundle_path_has_four_segments_witness :
  Py.count slash (Py.drop 7 "azfs://acct/bundles/0x1/contents") = 3
  /\ exists uuid, Some "0x1" = Some uuid /\ Py.count slash uuid = 0.
Proof.
  exact (remote_bundle_path_has_four_segments
           "azfs://acct/bundles/0x1/contents/a/b.txt"
           (mkLinkedBundlePath AZURE_BLOB_STORAGE
              "azfs://acct/bundles/0x1/contents" false true None (Some "0x1"))
           eq_refl eq_refl).
Defined.

(** For a remote descriptor [is_zip] can be read off the bundle path: it
    says whether the bundle path ends in [.zip]. *)
Theorem is_zip_iff_bundle_path_ends_in_zip (url : string)
    (lbp : LinkedBundlePath) :
  parse_linked_bundle_url url = Return lbp ->
  uses_beam lbp = true ->
  is_zip lbp = Py.endswith (bundle_path lbp) ".zip".
Proof.
  intros H Hb.
  destruct (parse_return_inv url lbp H)
    as [(Hp & ->) | (Hp & a & b & c & d & tail & _ & _ & _ & _ & _ & _ & _ & ->)];
    cbn [bundle_path uses_beam is_zip] in *; [discriminate|].
  replace ("azfs://" ++ a ++ "/" ++ b ++ "/" ++ c ++ "/" ++ d)
    with (("azfs://" ++ a ++ "/" ++ b ++ "/" ++ c) ++ String slash d)
    by (now rewrite !append_assoc).
  symmetry. apply endswith_after_separator. reflexivity.
Qed.

Lemma is_zip_iff_bundle_path_ends_in_zip_witness :
  true = Py.endswith "azfs://acct/bundles/0x1/contents.zip" ".zip".
Proof.
  exact (is_zip_iff_bundle_path_ends_in_zip
           "azfs://acct/bundles/0x1/contents.zip/src/lib/a.py"
           (mkLinkedBundlePath AZURE_BLOB_STORAGE
              "azfs://acct/bundles/0x1/contents.zip" true true
              (Some "src/lib/a.py") (Some "0x1"))
           eq_refl eq_refl).
Defined.

(** ** Responses as text *)

Ltac split_ranges :=
  repeat match goal with
         | |- context [(?a <=? ?b)%N] => destruct (N.leb_spec a b)
         | H : context [(?a <=? ?b)%N] |- _ => destruct (N.leb_spec a b)
         end;
  cbn in *; try congruence; try lia.

Lemma second_of_three_continues (lead c : ascii) :
  second_of_three lead c = true -> continuation c = true.
Proof.
  unfold second_of_three, continuation, byte_in.
  generalize (N_of_ascii lead) (N_of_ascii c). intros l n. split_ranges.
Qed.

Lemma second_of_four_continues (lead c : ascii) :
  second_of_four lead c = true ->
  continuation c = true /\ byte_in 240 244 lead = true.
Proof.
  unfold second_of_four, continuation, byte_in.
  generalize (N_of_ascii lead) (N_of_ascii c). intros l n.
  split_ranges; split; reflexivity.
Qed.

Lemma stray_byte_not_ascii (c : ascii) :
  never_in_utf8 c = true -> byte_in 0 127 c = false.
Proof.
  unfold never_in_utf8, byte_in. generalize (N_of_ascii c). intros n.
  split_ranges.
Qed.

Lemma stray_byte_no_lead (c : ascii) :
  never_in_utf8 c = true ->
  byte_in 194 223 c = false /\ byte_in 224 239 c = false
  /\ byte_in 240 244 c = false.
Proof.
  unfold never_in_utf8, byte_in. generalize (N_of_ascii c). intros n.
  split_ranges; repeat split.
Qed.

Lemma stray_byte_no_continuation (c : ascii) :
  never_in_utf8 c = true -> continuation c = false.
Proof.
  unfold never_in_utf8, continuation, byte_in. generalize (N_of_ascii c).
  intros n. split_ranges.
Qed.

Lemma stray_byte_not_second_of_three (lead c : ascii) :
  never_in_utf8 c = true -> second_of_three lead c = false.
Proof.
  intros H. apply stray_byte_no_continuation in H.
  destruct (second_of_three lead c) eqn:E; [|reflexivity].
  apply second_of_three_continues in E. congruence.
Qed.

Lemma stray_byte_not_second_of_four (lead c : ascii) :
  never_in_utf8 c = true -> second_of_four lead c = false.
Proof.
  intros H. apply stray_byte_no_continuation in H.
  destruct (second_of_four lead c) eqn:E; [|reflexivity].
  apply second_of_four_continues in E. destruct E. congruence.
Qed.

Lemma stray_lead_of_four (lead c : ascii) :
  never_in_utf8 lead = true -> second_of_four lead c = false.
Proof.
  intros H. destruct (stray_byte_no_lead lead H) as (_ & _ & H4).
  destruct (second_of_four lead c) eqn:E; [|reflexivity].
  apply second_of_four_continues in E. destruct E. congruence.
Qed.

(** One stray byte anywhere makes the whole byte string undecodable. *)
Lemma stray_byte_invalid (n : nat) :
  forall s, String.length s <= n ->
    has_byte never_in_utf8 s = true -> utf8_valid s = false.
Proof.
  induction n as [|n IH]; intros s Hl Hs.
  - destruct s; [discriminate Hs|simpl in Hl; lia].
  - destruct s as [|b0 r0]; [discriminate Hs|].
    cbn [has_byte] in Hs. cbn [utf8_valid]. simpl in Hl.
    destruct (never_in_utf8 b0) eqn:S0.
    + rewrite (stray_byte_not_ascii b0 S0).
      destruct (stray_byte_no_lead b0 S0) as (L2 & L3 & _).
      destruct r0 as [|b1 r1]; [reflexivity|]. rewrite L2.
      destruct r1 as [|b2 r2]; [reflexivity|]. rewrite L3.
      destruct r2 as [|b3 r3]; [reflexivity|].
      now rewrite (stray_lead_of_four b0 b1 S0).
    + cbn [orb] in Hs.
      destruct (byte_in 0 127 b0); [apply IH; [lia|exact Hs]|].
      destruct r0 as [|b1 r1]; [reflexivity|].
      cbn [has_byte] in Hs. simpl in Hl.
      destruct (never_in_utf8 b1) eqn:S1.
      * rewrite (stray_byte_no_continuation b1 S1).
        destruct (byte_in 194 223 b0); [reflexivity|].
        destruct r1 as [|b2 r2]; [reflexivity|].
        rewrite (stray_byte_not_second_of_three b0 b1 S1).
        destruct (byte_in 224 239 b0); [reflexivity|].
        destruct r2 as [|b3 r3]; [reflexivity|].
        now rewrite (stray_byte_not_second_of_four b0 b1 S1).
      * cbn [orb] in Hs.
        destruct (byte_in 194 223 b0).
        { rewrite (IH r1) by (lia || exact Hs). apply andb_false_r. }
        destruct r1 as [|b2 r2]; [reflexivity|].
        cbn [has_byte] in Hs. simpl in Hl.
        destruct (never_in_utf8 b2) eqn:S2.
        -- rewrite (stray_byte_no_continuation b2 S2).
           destruct (byte_in 224 239 b0); [now rewrite andb_false_r|].
           destruct r2 as [|b3 r3]; [reflexivity|].
           now rewrite andb_false_r.
        -- cbn [orb] in Hs.
           destruct (byte_in 224 239 b0).
           { rewrite (IH r2) by (lia || exact Hs). apply andb_false_r. }
           destruct r2 as [|b3 r3]; [reflexivity|].
           cbn [has_byte] in Hs. simpl in Hl.
           destruct (never_in_utf8 b3) eqn:S3.
           ++ rewrite (stray_byte_no_continuation b3 S3).
              now rewrite andb_false_r.
           ++ cbn [orb] in Hs.
              rewrite (IH r3) by (lia || exact Hs). apply andb_false_r.
Qed.

(** Bytes that contain a byte no UTF-8 text contains ([C0], [C1], [F5] to
    [FF]) are not decoded: [ensure_str] answers with the placeholder. *)
Theorem stray_byte_gives_placeholder (b : string) :
  has_byte never_in_utf8 b = true ->
  ensure_str (PyBytes b) = BINARY_PLACEHOLDER.
Proof.
  intros H. unfold ensure_str.
  now rewrite (stray_byte_invalid (String.length b) b (Nat.le_refl _) H).
Qed.

Lemma stray_byte_gives_placeholder_witness :
  ensure_str (PyBytes (String "P" (String "K" (String (ascii_of_N 255)
                         (String "a" EmptyString)))))
  = "<binary>".
Proof.
  apply (stray_byte_gives_placeholder
           (String "P" (String "K" (String (ascii_of_N 255)
              (String "a" EmptyString))))).
  reflexivity.
Defined.

(** Bytes that are all ASCII are returned as the same text. *)
Theorem ascii_bytes_are_returned_unchanged (b : string) :
  has_byte (fun c => negb (is_ascii_byte c)) b = false ->
  ensure_str (PyBytes b) = b.
Proof.
  intros H. unfold ensure_str.
  assert (V : utf8_valid b = true).
  { induction b as [|c t IH]; [reflexivity|].
    cbn [has_byte] in H. apply orb_false_iff in H. destruct H as [Hc Ht].
    apply negb_false_iff in Hc. unfold is_ascii_byte in Hc.
    cbn [utf8_valid]. rewrite Hc. now apply IH. }
  now rewrite V.
Qed.

Lemma ascii_bytes_are_returned_unchanged_witness :
  ensure_str (PyBytes "{'uuid': '0x1'}") = "{'uuid': '0x1'}".
Proof.
  apply (ascii_bytes_are_returned_unchanged "{'uuid': '0x1'}"). reflexivity.
Defined.

(** After well-formed bytes, what follows decides. *)
Lemma utf8_valid_app (n : nat) :
  forall s t, String.length s <= n ->
    utf8_valid s = true -> utf8_valid (s ++ t) = utf8_valid t.
Proof.
  induction n as [|n IH]; intros s t Hl Hs.
  - destruct s; [reflexivity|simpl in Hl; lia].
  - destruct s as [|b0 r0]; [reflexivity|].
    simpl in Hl. cbn [utf8_valid String.append] in *.
    destruct (byte_in 0 127 b0); [apply IH; [lia|exact Hs]|].
    destruct r0 as [|b1 r1]; [discriminate Hs|].
    simpl in Hl. cbn [String.append].
    destruct (byte_in 194 223 b0).
    { apply andb_true_iff in Hs. destruct Hs as [-> Hs].
      cbn [andb]. apply IH; [lia|exact Hs]. }
    destruct r1 as [|b2 r2]; [discriminate Hs|].
    simpl in Hl. cbn [String.append].
    destruct (byte_in 224 239 b0).
    { apply andb_true_iff in Hs. destruct Hs as [Hs1 Hs].
      rewrite Hs1. cbn [andb]. apply IH; [lia|exact Hs]. }
    destruct r2 as [|b3 r3]; [discriminate Hs|].
    simpl in Hl. cbn [String.append].
    apply andb_true_iff in Hs. destruct Hs as [Hs1 Hs].
    rewrite Hs1. cbn [andb]. apply IH; [lia|exact Hs].
Qed.

(** Decoding goes chunk by chunk: two byte strings that each decode give,
    joined, the joined texts. *)
Theorem decodable_chunks_concatenate (b1 b2 : string) :
  utf8_valid b1 = true -> utf8_valid b2 = true ->
  ensure_str (PyBytes (b1 ++ b2))
  = ensure_str (PyBytes b1) ++ ensure_str (PyBytes b2).
Proof.
  intros H1 H2. unfold ensure_str.
  rewrite (utf8_valid_app (String.length b1) b1 b2 (Nat.le_refl _) H1).
  now rewrite H1, H2.
Qed.

Lemma decodable_chunks_concatenate_witness :
  ensure_str (PyBytes ("stdout: " ++ "done"))
  = ensure_str (PyBytes "stdout: ") ++ ensure_str (PyBytes "done").
Proof.
  apply (decodable_chunks_concatenate "stdout: " "done"); reflexivity.
Defined.

(** A byte string that decodes up to some point and is ill-formed after it
    is not decoded at all: no partial text is returned. *)
Theorem undecodable_tail_gives_placeholder (b1 b2 : string) :
  utf8_valid b1 = true -> utf8_valid b2 = false ->
  ensure_str (PyBytes (b1 ++ b2)) = BINARY_PLACEHOLDER.
Proof.
  intros H1 H2. unfold ensure_str.
  rewrite (utf8_valid_app (String.length b1) b1 b2 (Nat.le_refl _) H1).
  now rewrite H2.
Qed.

Lemma undecodable_tail_gives_placeholder_witness :
  ensure_str (PyBytes ("ok" ++ String (ascii_of_N 128) EmptyString))
  = "<binary>".
Proof.
  apply (undecodable_tail_gives_placeholder
           "ok" (String (ascii_of_N 128) EmptyString)); reflexivity.
Defined.
